(** * Generate-SubwayMap.py: the renderer and its drawing primitives

    A shallow embedding of [SubwayMapGenerator] (Generate-SubwayMap.py) and
    of [main].  The matplotlib axes is modelled by the display list of the
    artists handed to it, in call order; the [stations] dict by a finite
    map from names to positions.

    Numbers.  Coordinates, sizes, widths and offsets are Python numbers
    that end up in the backend as IEEE binary64, so they are embedded as
    primitive floats, whose [+], [-] and [*] are Python's on floats.  The
    integer literals of the source (all below 2^53) are written as the
    floats of the same value.  [zorder] values are the integer literals of
    the source and stay in [Z].

    Errors.  The code handles no error: whatever matplotlib raises leaves
    the method that made the call, with the renderer as it was at that
    point.  A method that can raise is therefore a function from the
    renderer to how the call ended and the renderer it leaves behind. *)

From Stdlib Require Import ZArith Bool List Ascii Floats Uint63.
From stdpp Require Import base gmap strings.
Import ListNotations.

Set Warnings "-inexact-float".
Local Open Scope string_scope.
Local Open Scope list_scope.

Abbreviation num := float.

(** ** Exceptions and results *)

Inductive exn :=
| ValueError   (* a rejected argument; unpacking the wrong number of values *)
| IndexError   (* tuple index out of range *)
| OSError.     (* a file that cannot be written *)

Inductive result (A : Type) :=
| Ok (a : A)
| Raise (e : exn).
Arguments Ok {A} a.
Arguments Raise {A} e.

(** ** Module-level constants *)

(** The keys of the [COLORS] dict; every subscript in the source is one of
    these literals. *)
Inductive color_key :=
| system_info | network | config | devices | processes | storage.

Definition COLORS (k : color_key) : string :=
  match k with
  | system_info => "#E63946"
  | network => "#2A9D8F"
  | config => "#F4A261"
  | devices => "#E76F51"
  | processes => "#264653"
  | storage => "#8338EC"
  end.

(** ** Artists on the axes *)

(** [Circle((x, y), radius, color=..., zorder=...)]: [color] sets face and
    edge, and a patch is filled unless asked otherwise. *)
Record Circle := {
  center : num * num;
  radius : num;
  circle_color : string;
  circle_zorder : Z
}.

(** The line of one [ax.plot(xs, ys, ...)] call; keywords the call does not
    pass are [None]. *)
Record Line2D := {
  xdata : list num;
  ydata : list num;
  line_color : string;
  linewidth : num;
  linestyle : option string;
  line_zorder : Z;
  solid_capstyle : option string
}.

(** The [bbox=dict(...)] of a text. *)
Record BBox := {
  boxstyle : string;
  facecolor : string;
  edgecolor : string;
  alpha : num
}.

(** One [ax.text(x, y, s, ...)] call; keywords the call does not pass are
    [None]. *)
Record Text := {
  text_x : num;
  text_y : num;
  text_s : string;
  fontsize : num;
  ha : option string;
  va : option string;
  text_zorder : option Z;
  fontweight : option string;
  fontstyle : option string;
  text_color : option string;
  bbox : option BBox
}.

Inductive artist :=
| PatchArtist (c : Circle)
| LineArtist (l : Line2D)
| TextArtist (t : Text).

(** The [zorder] keyword an artist was created with. *)
Definition zorder (a : artist) : option Z :=
  match a with
  | PatchArtist c => Some (circle_zorder c)
  | LineArtist l => Some (line_zorder l)
  | TextArtist t => text_zorder t
  end.

(** ** The renderer *)

Record SubwayMapGenerator := {
  figsize : num * num;
  xlim : num * num;
  ylim : num * num;
  axis_on : bool;
  artists : list artist;                 (* self.ax, oldest first *)
  stations : gmap string (num * num);    (* self.stations *)
  fig_facecolor : option string;
  ax_facecolor : option string
}.

(** [__init__(self, width=20, height=16)], for a figure size that
    [plt.subplots] accepts; for any other it raises and there is no
    renderer. *)
Definition __init__ (width height : num) : SubwayMapGenerator :=
  {| figsize := (width, height);
     xlim := (0, 100)%float;
     ylim := (0, 100)%float;
     axis_on := false;
     artists := [];
     stations := ∅;
     fig_facecolor := None;
     ax_facecolor := None |}.

Definition default_width : num := 20%float.
Definition default_height : num := 16%float.

(** [self.ax.add_patch], [self.ax.plot] and [self.ax.text] all append one
    artist to the axes. *)
Definition ax_add (a : artist) (self : SubwayMapGenerator) : SubwayMapGenerator :=
  {| figsize := figsize self;
     xlim := xlim self;
     ylim := ylim self;
     axis_on := axis_on self;
     artists := artists self ++ [a];
     stations := stations self;
     fig_facecolor := fig_facecolor self;
     ax_facecolor := ax_facecolor self |}.

(** [self.stations[name] = pos] *)
Definition stations_set (name : string) (pos : num * num)
    (self : SubwayMapGenerator) : SubwayMapGenerator :=
  {| figsize := figsize self;
     xlim := xlim self;
     ylim := ylim self;
     axis_on := axis_on self;
     artists := artists self;
     stations := <[name := pos]> (stations self);
     fig_facecolor := fig_facecolor self;
     ax_facecolor := ax_facecolor self |}.

(** ** What matplotlib accepts

    matplotlib checks the string arguments of an artist when the artist is
    created, and raises ValueError for a string it rejects; the artist is
    then not added to the axes. *)

Definition one_of (l : list string) (s : string) : bool :=
  existsb (String.eqb s) l.

Definition is_hex_digit (c : ascii) : bool :=
  existsb (Ascii.eqb c) (String.list_ascii_of_string "0123456789abcdefABCDEF").

(** [#rrggbb] *)
Definition is_hex6 (s : string) : bool :=
  match s with
  | String "#" digits =>
      (String.length digits =? 6)%nat &&
      forallb is_hex_digit (String.list_ascii_of_string digits)
  | _ => false
  end.

(** The line styles [Line2D] accepts as strings. *)
Definition is_linestyle (s : string) : bool :=
  one_of ["-"; "--"; "-."; ":"; "solid"; "dashed"; "dashdot"; "dotted";
          "None"; "none"; " "; EmptyString] s.

(** The alignments [Text] accepts. *)
Definition is_ha (s : string) : bool :=
  one_of ["center"; "right"; "left"] s.

Definition is_va (s : string) : bool :=
  one_of ["top"; "bottom"; "center"; "baseline"; "center_baseline"] s.

(** The weight names of [font_manager.weight_dict]. *)
Definition weight_names : list string :=
  ["ultralight"; "light"; "normal"; "regular"; "book"; "medium"; "roman";
   "semibold"; "demibold"; "demi"; "bold"; "heavy"; "extra bold"; "black"].

(** Sample values for the parts of matplotlib and of the file system that
    the development is parameterised by, to run the definitions on. *)
Definition no_further_color : string -> bool := fun _ => false.

Definition no_numeric_weight : string -> bool := fun _ => false.

Definition savefig_positive_dpi (fname : string) (dpi : Z) : result unit :=
  if (dpi <=? 0)%Z then Raise ValueError else Ok tt.

Section Matplotlib.

(** Whether matplotlib accepts a string as a color by a rule other than
    the two spelled out in [is_color_like]: its tables of color names, the
    short and the eight-digit hex forms, gray levels, cycle colors. *)
Variable further_color : string -> bool.

(** Whether [int] reads a string as a font weight between 0 and 1000. *)
Variable numeric_weight : string -> bool.

(** How [plt.savefig] ends for a file name and a resolution: it raises
    when the path cannot be written, when the backend does not know the
    extension, and in the Agg backend when the resolution is not
    positive. *)
Variable savefig_outcome : string -> Z -> result unit.

(** The strings accepted as a color: [#rrggbb], the three color names the
    source uses, and whatever else matplotlib accepts. *)
Definition is_color_like (s : string) : bool :=
  is_hex6 s || one_of ["black"; "white"; "gray"] s || further_color s.

Definition is_fontweight (s : string) : bool :=
  one_of weight_names s || numeric_weight s.

(** *** draw_station *)

Definition is_interchange_default : bool := false.
Definition size_default : num := 0.8%float.

(** [Circle((x, y), radius, color=color, zorder=zorder)] *)
Definition new_Circle (xy : num * num) (radius : num) (color : string)
    (zorder : Z) : result Circle :=
  if is_color_like color then
    Ok {| center := xy; radius := radius; circle_color := color;
          circle_zorder := zorder |}
  else Raise ValueError.

(** [draw_station(self, x, y, name, color, is_interchange=False, size=0.8)].
    When a [Circle] is rejected the method is left at once: what was
    added before stays on the axes, and [self.stations] is not written. *)
Definition draw_station (x y : num) (name color : string)
    (is_interchange : bool) (size : num)
    (self : SubwayMapGenerator) : result unit * SubwayMapGenerator :=
  if is_interchange then
    match new_Circle (x, y) (size * 1.2)%float "white" 3 with
    | Raise e => (Raise e, self)
    | Ok circle =>
        let self := ax_add (PatchArtist circle) self in
        match new_Circle (x, y) size color 4 with
        | Raise e => (Raise e, self)
        | Ok circle =>
            let self := ax_add (PatchArtist circle) self in
            (Ok tt, stations_set name (x, y) self)
        end
    end
  else
    match new_Circle (x, y) size color 3 with
    | Raise e => (Raise e, self)
    | Ok circle =>
        let self := ax_add (PatchArtist circle) self in
        (Ok tt, stations_set name (x, y) self)
    end.

(** *** draw_line *)

(** A point is a Python tuple of numbers; [zip] applied to the unpacked
    [points] transposes the tuples, stopping at the shortest one. *)
Definition heads (rows : list (list num)) : option (list num) :=
  mapM head rows.

Fixpoint zip_rows (n : nat) (rows : list (list num)) : list (list num) :=
  match n with
  | O => []
  | S n' =>
      match heads rows with
      | Some h => h :: zip_rows n' (map (@tail num) rows)
      | None => []
      end
  end.

Definition zip_star (rows : list (list num)) : list (list num) :=
  match rows with
  | [] => []
  | r :: _ => zip_rows (length r) rows
  end.

Definition linewidth_default : num := 4%float.
Definition style_default : string := "-".

(** [draw_line(self, points, color, linewidth=4, style='-')]; the
    unpacking of the transposition into [xs, ys] raises ValueError unless
    it has exactly two rows, and [ax.plot] raises ValueError for a color
    or a line style it rejects.  The result pairs how the call ended with
    the renderer it leaves behind. *)
Definition draw_line (points : list (list num)) (color : string)
    (linewidth : num) (style : string)
    (self : SubwayMapGenerator) : result unit * SubwayMapGenerator :=
  if (length points <? 2)%nat then (Ok tt, self)
  else
    match zip_star points with
    | [xs; ys] =>
        if is_color_like color && is_linestyle style then
          (Ok tt,
           ax_add (LineArtist
                     {| xdata := xs; ydata := ys; line_color := color;
                        linewidth := linewidth; linestyle := Some style;
                        line_zorder := 2;
                        solid_capstyle := Some "round" |}) self)
        else (Raise ValueError, self)
    | _ => (Raise ValueError, self)
    end.

(** *** add_label *)

(** The keyword parameters of [add_label].  [kw_bbox_style] holds the truth
    value of the argument, which the code only tests ([if bbox_style:]);
    the default [None] is falsy. *)
Record label_kw := {
  kw_fontsize : num;
  kw_ha : string;
  kw_va : string;
  kw_offset_x : num;
  kw_offset_y : num;
  kw_bbox_style : bool;
  kw_fontweight : string
}.

(** [fontsize=9, ha='left', va='center', offset_x=2, offset_y=0,
    bbox_style=None, fontweight='normal'] *)
Definition add_label_defaults : label_kw :=
  {| kw_fontsize := 9%float;
     kw_ha := "left";
     kw_va := "center";
     kw_offset_x := 2%float;
     kw_offset_y := 0%float;
     kw_bbox_style := false;
     kw_fontweight := "normal" |}.

(** A keyword argument written at a call site. *)
Inductive label_kwarg :=
| Fontsize (v : num)
| Ha (s : string)
| Va (s : string)
| Offset_x (v : num)
| Offset_y (v : num)
| Bbox_style (b : bool)
| Fontweight (s : string).

Definition set_kwarg (k : label_kw) (a : label_kwarg) : label_kw :=
  match a with
  | Fontsize v =>
      {| kw_fontsize := v; kw_ha := kw_ha k; kw_va := kw_va k;
         kw_offset_x := kw_offset_x k; kw_offset_y := kw_offset_y k;
         kw_bbox_style := kw_bbox_style k; kw_fontweight := kw_fontweight k |}
  | Ha s =>
      {| kw_fontsize := kw_fontsize k; kw_ha := s; kw_va := kw_va k;
         kw_offset_x := kw_offset_x k; kw_offset_y := kw_offset_y k;
         kw_bbox_style := kw_bbox_style k; kw_fontweight := kw_fontweight k |}
  | Va s =>
      {| kw_fontsize := kw_fontsize k; kw_ha := kw_ha k; kw_va := s;
         kw_offset_x := kw_offset_x k; kw_offset_y := kw_offset_y k;
         kw_bbox_style := kw_bbox_style k; kw_fontweight := kw_fontweight k |}
  | Offset_x v =>
      {| kw_fontsize := kw_fontsize k; kw_ha := kw_ha k; kw_va := kw_va k;
         kw_offset_x := v; kw_offset_y := kw_offset_y k;
         kw_bbox_style := kw_bbox_style k; kw_fontweight := kw_fontweight k |}
  | Offset_y v =>
      {| kw_fontsize := kw_fontsize k; kw_ha := kw_ha k; kw_va := kw_va k;
         kw_offset_x := kw_offset_x k; kw_offset_y := v;
         kw_bbox_style := kw_bbox_style k; kw_fontweight := kw_fontweight k |}
  | Bbox_style b =>
      {| kw_fontsize := kw_fontsize k; kw_ha := kw_ha k; kw_va := kw_va k;
         kw_offset_x := kw_offset_x k; kw_offset_y := kw_offset_y k;
         kw_bbox_style := b; kw_fontweight := kw_fontweight k |}
  | Fontweight s =>
      {| kw_fontsize := kw_fontsize k; kw_ha := kw_ha k; kw_va := kw_va k;
         kw_offset_x := kw_offset_x k; kw_offset_y := kw_offset_y k;
         kw_bbox_style := kw_bbox_style k; kw_fontweight := s |}
  end.

(** The parameters of a call: the defaults, overridden by the keywords
    the call writes. *)
Definition kwargs (l : list label_kwarg) : label_kw :=
  fold_left set_kwarg l add_label_defaults.

(** [dict(boxstyle='round,pad=0.3', facecolor='white', edgecolor='gray',
    alpha=0.9)] *)
Definition label_bbox : BBox :=
  {| boxstyle := "round,pad=0.3";
     facecolor := "white";
     edgecolor := "gray";
     alpha := 0.9%float |}.

(** The keywords of a label that [ax.text] checks. *)
Definition label_accepted (kw : label_kw) : bool :=
  is_ha (kw_ha kw) && is_va (kw_va kw) && is_fontweight (kw_fontweight kw).

(** [add_label(self, x, y, text, fontsize=9, ha='left', va='center',
    offset_x=2, offset_y=0, bbox_style=None, fontweight='normal')]; in
    either branch [ax.text] raises ValueError for an alignment or a weight
    it rejects and adds no text. *)
Definition add_label (x y : num) (text : string) (kw : label_kw)
    (self : SubwayMapGenerator) : result unit * SubwayMapGenerator :=
  if kw_bbox_style kw then
    if label_accepted kw then
      (Ok tt,
       ax_add (TextArtist
                 {| text_x := (x + kw_offset_x kw)%float;
                    text_y := (y + kw_offset_y kw)%float;
                    text_s := text;
                    fontsize := kw_fontsize kw;
                    ha := Some (kw_ha kw); va := Some (kw_va kw);
                    text_zorder := Some 5%Z;
                    fontweight := Some (kw_fontweight kw);
                    fontstyle := None; text_color := None;
                    bbox := Some label_bbox |}) self)
    else (Raise ValueError, self)
  else
    if label_accepted kw then
      (Ok tt,
       ax_add (TextArtist
                 {| text_x := (x + kw_offset_x kw)%float;
                    text_y := (y + kw_offset_y kw)%float;
                    text_s := text;
                    fontsize := kw_fontsize kw;
                    ha := Some (kw_ha kw); va := Some (kw_va kw);
                    text_zorder := Some 5%Z;
                    fontweight := Some (kw_fontweight kw);
                    fontstyle := None; text_color := None;
                    bbox := None |}) self)
    else (Raise ValueError, self).

(** *** draw_legend *)

(** The loop index of [enumerate] as a number. *)
Definition num_of_nat (i : nat) : num :=
  of_uint63 (Uint63.of_Z (Z.of_nat i)).

Definition enumerate {A : Type} (l : list A) : list (nat * A) :=
  combine (seq 0 (length l)) l.

Definition legend_x : num := 5%float.
Definition legend_y : num := 8%float.

Definition legend_lines : list (string * string) :=
  [ ("System Info Line", COLORS system_info);
    ("Network Line", COLORS network);
    ("Configuration Line", COLORS config);
    ("Devices Line", COLORS devices);
    ("Process Line", COLORS processes);
    ("Storage Line", COLORS storage) ].

(** The body of the loop over [enumerate(lines)]. *)
Definition legend_entry (self : SubwayMapGenerator)
    (item : nat * (string * string)) : SubwayMapGenerator :=
  let '(i, (label, color)) := item in
  let y := (legend_y - num_of_nat i * 2)%float in
  let self :=
    ax_add (LineArtist
              {| xdata := [legend_x; (legend_x + 4)%float];
                 ydata := [y; y];
                 line_color := color; linewidth := 4%float;
                 linestyle := None; line_zorder := 2;
                 solid_capstyle := None |}) self in
  ax_add (TextArtist
            {| text_x := (legend_x + 5)%float; text_y := y;
               text_s := label; fontsize := 10%float;
               ha := None; va := Some "center";
               text_zorder := Some 5%Z; fontweight := None;
               fontstyle := None; text_color := None;
               bbox := None |}) self.

(** [draw_legend(self)] *)
Definition draw_legend (self : SubwayMapGenerator) : SubwayMapGenerator :=
  let self :=
    ax_add (TextArtist
              {| text_x := legend_x; text_y := (legend_y + 18)%float;
                 text_s := "PsProc Filesystem"; fontsize := 24%float;
                 ha := None; va := None;
                 text_zorder := Some 5%Z; fontweight := Some "bold";
                 fontstyle := None; text_color := None;
                 bbox := None |}) self in
  let self :=
    ax_add (TextArtist
              {| text_x := legend_x; text_y := (legend_y + 15)%float;
                 text_s := "Subway Map"; fontsize := 20%float;
                 ha := None; va := None;
                 text_zorder := Some 5%Z; fontweight := Some "bold";
                 fontstyle := None; text_color := None;
                 bbox := None |}) self in
  fold_left legend_entry (enumerate legend_lines) self.

(** ** Method calls made by [generate_map]

    [generate_map] runs in a state-and-exception monad over the renderer:
    a computation ends by returning or by raising, and either way leaves a
    renderer behind.  Next to the renderer the monad keeps the log of the
    method calls made on [self], in call order; the renderer itself holds
    no such log. *)

Inductive call :=
| draw_station_call (x y : num) (name color : string)
    (is_interchange : bool) (size : num)
| draw_line_call (points : list (list num)) (color : string)
    (linewidth : num) (style : string)
| add_label_call (x y : num) (text : string) (kw : label_kw)
| draw_legend_call.

(** What a call does to the renderer. *)
Definition exec (c : call) (self : SubwayMapGenerator)
    : result unit * SubwayMapGenerator :=
  match c with
  | draw_station_call x y name color is_interchange size =>
      draw_station x y name color is_interchange size self
  | draw_line_call points color linewidth style =>
      draw_line points color linewidth style self
  | add_label_call x y text kw =>
      add_label x y text kw self
  | draw_legend_call =>
      (Ok tt, draw_legend self)
  end.

Definition M (A : Type) : Type :=
  SubwayMapGenerator * list call ->
  result A * (SubwayMapGenerator * list call).

#[export] Instance M_ret : MRet M := fun A a st => (Ok a, st).

#[export] Instance M_bind : MBind M := fun A B f m st =>
  match m st with
  | (Ok a, st') => f a st'
  | (Raise e, st') => (Raise e, st')
  end.

(** An expression of the body that may raise. *)
Definition lift {A : Type} (r : result A) : M A := fun st => (r, st).

(** A direct change of [self.ax] or [self.fig]. *)
Definition modify (f : SubwayMapGenerator -> SubwayMapGenerator) : M unit :=
  fun st => (Ok tt, (f st.1, st.2)).

(** A method call on [self]: logged, then executed. *)
Definition invoke (c : call) : M unit := fun st =>
  let (r, self') := exec c st.1 in
  (r, (self', st.2 ++ [c])).

Definition self_draw_station (x y : num) (name color : string)
    (is_interchange : bool) (size : num) : M unit :=
  invoke (draw_station_call x y name color is_interchange size).

Definition self_draw_line (points : list (list num)) (color : string)
    (linewidth : num) (style : string) : M unit :=
  invoke (draw_line_call points color linewidth style).

Definition self_add_label (x y : num) (text : string)
    (kws : list label_kwarg) : M unit :=
  invoke (add_label_call x y text (kwargs kws)).

Definition self_draw_legend : M unit :=
  invoke draw_legend_call.

(** [for a in l: body] *)
Fixpoint for_each {A : Type} (l : list A) (body : A -> M unit) : M unit :=
  match l with
  | [] => mret tt
  | a :: l' => body a ;; for_each l' body
  end.

(** The station tuples of [generate_map]: [(x, y)] or [(x, y, name)]. *)
Inductive tuple :=
| T2 (x y : num)
| T3 (x y : num) (name : string).

(** [t[0]], [t[1]], [t[2]] and [t[:2]] *)
Definition item0 (t : tuple) : num :=
  match t with T2 x _ | T3 x _ _ => x end.

Definition item1 (t : tuple) : num :=
  match t with T2 _ y | T3 _ y _ => y end.

Definition item2 (t : tuple) : result string :=
  match t with
  | T2 _ _ => Raise IndexError
  | T3 _ _ name => Ok name
  end.

Definition slice2 (t : tuple) : list num :=
  [item0 t; item1 t].

Definition set_fig_facecolor (c : string) (self : SubwayMapGenerator)
    : SubwayMapGenerator :=
  {| figsize := figsize self;
     xlim := xlim self;
     ylim := ylim self;
     axis_on := axis_on self;
     artists := artists self;
     stations := stations self;
     fig_facecolor := Some c;
     ax_facecolor := ax_facecolor self |}.

Definition set_ax_facecolor (c : string) (self : SubwayMapGenerator)
    : SubwayMapGenerator :=
  {| figsize := figsize self;
     xlim := xlim self;
     ylim := ylim self;
     axis_on := axis_on self;
     artists := artists self;
     stations := stations self;
     fig_facecolor := fig_facecolor self;
     ax_facecolor := Some c |}.

(** *** generate_map *)

Section GenerateMap.
Local Open Scope float_scope.

(** The loop body shared by the branch stations of a hub: a thin line from
    the hub, the station under its prefixed name, and its label. *)
Definition branch_station (from_x from_y : num) (color prefix : string)
    (label_kws : list label_kwarg) (station : tuple) : M unit :=
  self_draw_line [[from_x; from_y]; [item0 station; item1 station]]
    color 3 style_default ;;
  name ← lift (item2 station);
  self_draw_station (item0 station) (item1 station) (prefix +:+ name)
    color is_interchange_default 0.6 ;;
  name ← lift (item2 station);
  self_add_label (item0 station) (item1 station) name label_kws.

(** The loop body of the two trunk lines whose stations sit on the line
    itself (System Information and Storage). *)
Definition trunk_station (color : string) (label_kws : list label_kwarg)
    (station : tuple) : M unit :=
  name ← lift (item2 station);
  self_draw_station (item0 station) (item1 station) name
    color is_interchange_default size_default ;;
  name ← lift (item2 station);
  self_add_label (item0 station) (item1 station) name label_kws.

(** [generate_map(self)] *)
Definition generate_map : M unit :=
  (* Central hub - ProcRoot *)
  let hub_x := 50 in
  let hub_y := 50 in
  self_draw_station hub_x hub_y "proc:/" "black" true 1.5 ;;
  self_add_label hub_x hub_y "proc:/"
    [Fontsize 14; Fontweight "bold"; Offset_x 0; Offset_y (-3);
     Ha "center"; Bbox_style true] ;;

  (* System Information Line (Red) - Vertical going up *)
  let sys_info_stations :=
    [ T2 hub_x hub_y;
      T3 hub_x (hub_y + 8) "cpuinfo";
      T3 hub_x (hub_y + 14) "meminfo";
      T3 hub_x (hub_y + 20) "version";
      T3 hub_x (hub_y + 26) "uptime";
      T3 hub_x (hub_y + 32) "loadavg";
      T3 hub_x (hub_y + 38) "stat" ] in
  self_draw_line (map slice2 sys_info_stations) (COLORS system_info)
    linewidth_default style_default ;;
  for_each (tail sys_info_stations)
    (trunk_station (COLORS system_info) [Offset_x 3]) ;;

  (* Network Line (Teal) - Diagonal to upper right *)
  let net_hub_x := hub_x + 20 in
  let net_hub_y := hub_y + 20 in
  self_draw_line [[hub_x; hub_y]; [net_hub_x; net_hub_y]] (COLORS network)
    linewidth_default style_default ;;
  self_draw_station net_hub_x net_hub_y "net/" (COLORS network)
    true size_default ;;
  self_add_label net_hub_x net_hub_y "net/"
    [Fontsize 11; Fontweight "bold"; Offset_x 0; Offset_y 2;
     Ha "center"; Bbox_style true] ;;

  (* Network sub-stations branching out *)
  let net_stations :=
    [ T3 (net_hub_x + 8) (net_hub_y + 4) "dev";
      T3 (net_hub_x + 12) (net_hub_y + 8) "route";
      T3 (net_hub_x + 16) (net_hub_y + 4) "arp";
      T3 (net_hub_x + 20) net_hub_y "tcp";
      T3 (net_hub_x + 20) (net_hub_y - 4) "udp" ] in
  for_each (enumerate net_stations)
    (fun '(i, station) =>
       branch_station net_hub_x net_hub_y (COLORS network) "net/"
         [Fontsize 8; Offset_x 2] station) ;;

  (* Configuration Line (Orange) - Diagonal to lower right *)
  let sys_hub_x := hub_x + 20 in
  let sys_hub_y := hub_y - 20 in
  self_draw_line [[hub_x; hub_y]; [sys_hub_x; sys_hub_y]] (COLORS config)
    linewidth_default style_default ;;
  self_draw_station sys_hub_x sys_hub_y "sys/" (COLORS config)
    true size_default ;;
  self_add_label sys_hub_x sys_hub_y "sys/"
    [Fontsize 11; Fontweight "bold"; Offset_x 0; Offset_y (-2.5);
     Ha "center"; Bbox_style true] ;;

  (* sys/kernel sub-stations *)
  let kernel_x := sys_hub_x + 10 in
  let kernel_y := sys_hub_y - 8 in
  self_draw_line [[sys_hub_x; sys_hub_y]; [kernel_x; kernel_y]]
    (COLORS config) linewidth_default style_default ;;
  self_draw_station kernel_x kernel_y "sys/kernel/" (COLORS config)
    true 0.9 ;;
  self_add_label kernel_x kernel_y "kernel/"
    [Fontsize 10; Fontweight "bold"; Offset_x 0; Offset_y (-2);
     Ha "center"] ;;

  let kernel_stations :=
    [ T3 (kernel_x + 6) (kernel_y - 4) "hostname";
      T3 (kernel_x + 10) (kernel_y - 6) "ostype";
      T3 (kernel_x + 14) (kernel_y - 4) "osrelease";
      T3 (kernel_x + 18) kernel_y "version" ] in
  for_each kernel_stations
    (branch_station kernel_x kernel_y (COLORS config) "kernel/"
       [Fontsize 8; Offset_x 2]) ;;

  (* Devices Line (Coral) - Horizontal to right *)
  let dev_hub_x := hub_x + 22 in
  let dev_hub_y := hub_y in
  self_draw_line [[hub_x; hub_y]; [dev_hub_x; dev_hub_y]] (COLORS devices)
    linewidth_default style_default ;;
  self_draw_station dev_hub_x dev_hub_y "devices/" (COLORS devices)
    true size_default ;;
  self_add_label dev_hub_x dev_hub_y "devices/"
    [Fontsize 11; Fontweight "bold"; Offset_x 0; Offset_y 2;
     Ha "center"; Bbox_style true] ;;

  (* Device sub-stations *)
  let dev_stations :=
    [ T3 (dev_hub_x + 8) (dev_hub_y + 3) "block";
      T3 (dev_hub_x + 8) (dev_hub_y - 3) "character" ] in
  for_each dev_stations
    (branch_station dev_hub_x dev_hub_y (COLORS devices) "devices/"
       [Fontsize 8; Offset_x 2]) ;;

  (* Process Line (Dark Blue) - Diagonal to upper left *)
  let proc_hub_x := hub_x - 20 in
  let proc_hub_y := hub_y + 20 in
  self_draw_line [[hub_x; hub_y]; [proc_hub_x; proc_hub_y]]
    (COLORS processes) linewidth_default style_default ;;
  self_draw_station proc_hub_x proc_hub_y "self/" (COLORS processes)
    true size_default ;;
  self_add_label proc_hub_x proc_hub_y "self/"
    [Fontsize 11; Fontweight "bold"; Offset_x 0; Offset_y 2;
     Ha "center"; Bbox_style true] ;;

  (* self sub-stations *)
  let self_stations :=
    [ T3 (proc_hub_x - 8) (proc_hub_y + 4) "cmdline";
      T3 (proc_hub_x - 12) (proc_hub_y + 8) "status";
      T3 (proc_hub_x - 16) (proc_hub_y + 4) "stat";
      T3 (proc_hub_x - 18) proc_hub_y "environ" ] in
  for_each self_stations
    (branch_station proc_hub_x proc_hub_y (COLORS processes) "self/"
       [Fontsize 8; Offset_x (-2); Ha "right"]) ;;

  (* [PID] branch *)
  let pid_x := proc_hub_x in
  let pid_y := proc_hub_y + 12 in
  self_draw_line [[proc_hub_x; proc_hub_y]; [pid_x; pid_y]]
    (COLORS processes) linewidth_default style_default ;;
  self_draw_station pid_x pid_y "[PID]/" (COLORS processes) true 0.9 ;;
  self_add_label pid_x pid_y "[PID]/"
    [Fontsize 10; Fontweight "bold"; Offset_x 0; Offset_y 2;
     Ha "center"] ;;

  let pid_stations :=
    [ T3 (pid_x - 6) (pid_y + 4) "cmdline";
      T3 (pid_x - 10) (pid_y + 6) "status";
      T3 (pid_x - 14) (pid_y + 4) "stat";
      T3 (pid_x - 16) pid_y "environ";
      T3 (pid_x - 16) (pid_y - 4) "maps" ] in
  for_each pid_stations
    (branch_station pid_x pid_y (COLORS processes) "[PID]/"
       [Fontsize 8; Offset_x (-2); Ha "right"]) ;;

  (* Storage Line (Purple) - Diagonal to lower left *)
  let storage_stations :=
    [ T2 hub_x hub_y;
      T3 (hub_x - 8) (hub_y - 8) "mounts";
      T3 (hub_x - 14) (hub_y - 14) "swaps";
      T3 (hub_x - 20) (hub_y - 20) "partitions";
      T3 (hub_x - 26) (hub_y - 26) "filesystems" ] in
  self_draw_line (map slice2 storage_stations) (COLORS storage)
    linewidth_default style_default ;;
  for_each (tail storage_stations)
    (trunk_station (COLORS storage) [Offset_x (-2); Ha "right"]) ;;

  (* Additional files - modules and cmdline as single stations *)
  self_draw_line [[hub_x; hub_y]; [hub_x - 12; hub_y]] (COLORS system_info)
    3 style_default ;;
  self_draw_station (hub_x - 12) hub_y "modules" (COLORS system_info)
    is_interchange_default 0.6 ;;
  self_add_label (hub_x - 12) hub_y "modules"
    [Fontsize 8; Offset_x (-2); Ha "right"] ;;

  self_draw_line [[hub_x; hub_y]; [hub_x; hub_y - 8]] (COLORS system_info)
    3 style_default ;;
  self_draw_station hub_x (hub_y - 8) "cmdline" (COLORS system_info)
    is_interchange_default 0.6 ;;
  self_add_label hub_x (hub_y - 8) "cmdline"
    [Fontsize 8; Offset_y (-2); Ha "center"] ;;

  (* Draw legend *)
  self_draw_legend ;;

  (* Add footer info *)
  modify (ax_add (TextArtist
    {| text_x := 50; text_y := 2;
       text_s := "PowerShell proc: Drive Filesystem Structure";
       fontsize := 10; ha := Some "center"; va := None;
       text_zorder := None; fontweight := None;
       fontstyle := Some "italic"; text_color := Some "gray";
       bbox := None |})) ;;
  modify (ax_add (TextArtist
    {| text_x := 50; text_y := 0.5;
       text_s := "Generated by Generate-SubwayMap.py";
       fontsize := 8; ha := Some "center"; va := None;
       text_zorder := None; fontweight := None;
       fontstyle := None; text_color := Some "gray";
       bbox := None |})) ;;

  (* Set background color *)
  modify (set_fig_facecolor "#f5f5f5") ;;
  modify (set_ax_facecolor "white").

End GenerateMap.

(** A run of [generate_map] on a renderer, with an empty call log. *)
Definition run_generate_map (self : SubwayMapGenerator)
    : result unit * (SubwayMapGenerator * list call) :=
  generate_map (self, []).

(** ** save and main *)











(** * Properties *)

(** The artists [after] has beyond those of [before]. *)
Definition drawn (before after : SubwayMapGenerator) : list artist :=
  drop (length (artists before)) (artists after).

(** The names passed to [draw_station] in a call log. *)
Definition station_names (calls : list call) : list string :=
  omap (fun c => match c with
                 | draw_station_call _ _ name _ _ _ => Some name
                 | _ => None
                 end) calls.

(** The two artists one pass of the legend loop adds. *)
Definition legend_entry_drawn (item : nat * (string * string)) : list artist :=
  drawn (__init__ default_width default_height)
        (legend_entry (__init__ default_width default_height) item).

(** Everything [draw_legend] adds, as a closed list. *)
Definition legend_drawn : list artist :=
  Eval vm_compute in
    drawn (__init__ default_width default_height)
          (draw_legend (__init__ default_width default_height)).

(** The title block: the two bold title lines above the entries. *)
Definition legend_title : list artist :=
  [ TextArtist
      {| text_x := 5; text_y := 26; text_s := "PsProc Filesystem";
         fontsize := 24; ha := None; va := None; text_zorder := Some 5%Z;
         fontweight := Some "bold"; fontstyle := None; text_color := None;
         bbox := None |};
    TextArtist
      {| text_x := 5; text_y := 23; text_s := "Subway Map";
         fontsize := 20; ha := None; va := None; text_zorder := Some 5%Z;
         fontweight := Some "bold"; fontstyle := None; text_color := None;
         bbox := None |} ].

(** A legend entry at height [y]: a segment of width 4 from [(5, y)] to
    [(9, y)] in the entry's color, and the entry's name at [(10, y)]. *)
Definition legend_row (name color : string) (y : num) : list artist :=
  [ LineArtist
      {| xdata := [5; 9]%float; ydata := [y; y]; line_color := color;
         linewidth := 4; linestyle := None; line_zorder := 2;
         solid_capstyle := None |};
    TextArtist
      {| text_x := 10; text_y := y; text_s := name; fontsize := 10;
         ha := None; va := Some "center"; text_zorder := Some 5%Z;
         fontweight := None; fontstyle := None; text_color := None;
         bbox := None |} ].

(** The kinds of artist. *)
Definition is_circle (a : artist) : bool :=
  match a with PatchArtist _ => true | _ => false end.

Definition is_line (a : artist) : bool :=
  match a with LineArtist _ => true | _ => false end.

Definition is_text (a : artist) : bool :=
  match a with TextArtist _ => true | _ => false end.

(** The first color swatch of the legend. *)
Definition first_swatch : artist :=
  LineArtist
    {| xdata := [5; 9]%float; ydata := [8; 8]%float;
       line_color := "#E63946"; linewidth := 4; linestyle := None;
       line_zorder := 2; solid_capstyle := None |}.

(** [appends m d cs]: on every renderer [m] returns normally, having added
    exactly the artists [d] to the axes and made exactly the calls [cs]. *)
Definition appends (m : M unit) (d : list artist) (cs : list call) : Prop :=
  forall self tr, exists self',
    m (self, tr) = (Ok tt, (self', tr ++ cs)) /\
    artists self' = artists self ++ d.

(** ** Vocabulary of the further properties *)

(** The renderer after a sequence of method calls made in order, each
    returned or raised. *)
Definition replay (calls : list call) (self : SubwayMapGenerator)
    : SubwayMapGenerator :=
  fold_left (fun s c => (exec c s).2) calls self.

(** The length of the shortest tuple among the points. *)
Fixpoint min_arity (points : list (list num)) : nat :=
  match points with
  | [] => 0
  | p :: ps =>
      match ps with
      | [] => length p
      | _ :: _ => Nat.min (length p) (min_arity ps)
      end
  end.

(** The [j]-th coordinates of the points. *)
Definition column (j : nat) (points : list (list num)) : list num :=
  map (fun p => nth j p 0%float) points.

(** A well-formed point [(x, y)]. *)
Definition point (p : num * num) : list num := [p.1; p.2].

(** Every recorded station has a circle centred at its recorded position. *)
Definition station_marked (self : SubwayMapGenerator) : Prop :=
  forall name pos,
    stations self !! name = Some pos ->
    exists c, In (PatchArtist c) (artists self) /\ center c = pos.

(** Two renderers with the same figure and axes settings. *)
Definition same_settings (s1 s2 : SubwayMapGenerator) : Prop :=
  figsize s1 = figsize s2 /\ xlim s1 = xlim s2 /\ ylim s1 = ylim s2 /\
  axis_on s1 = axis_on s2 /\ fig_facecolor s1 = fig_facecolor s2 /\
  ax_facecolor s1 = ax_facecolor s2.

(** The white ring that the first [Circle] of an interchange adds. *)
Definition white_ring (x y size : num) : artist :=
  PatchArtist {| center := (x, y); radius := (size * 1.2)%float;
                 circle_color := "white"; circle_zorder := 3 |}.

(** What a call does to the [stations] mapping. *)
Definition stations_step (m : gmap string (num * num)) (c : call)
    : gmap string (num * num) :=
  match c with
  | draw_station_call x y name color _ _ =>
      if is_color_like color then <[name := (x, y)]> m else m
  | _ => m
  end.

(** The [stations] mapping after a sequence of calls. *)
Definition stations_after (calls : list call) (m : gmap string (num * num))
    : gmap string (num * num) :=
  fold_left stations_step calls m.

(** The names passed to [draw_station] with a color it accepts. *)
Definition recorded_names (calls : list call) : list string :=
  omap (fun c => match c with
                 | draw_station_call _ _ name color _ _ =>
                     if is_color_like color then Some name else None
                 | _ => None
                 end) calls.

(** [records m cs]: on every renderer [m] returns normally, having made
    exactly the calls [cs] and changed [stations] as these calls do. *)
Definition records (m : M unit) (cs : list call) : Prop :=
  forall self tr, exists self',
    m (self, tr) = (Ok tt, (self', tr ++ cs)) /\
    stations self' = stations_after cs (stations self).

(** The finished map of a freshly constructed default renderer: the
    renderer itself, its artists, its stations and the calls made. *)
Definition generate_map_figure : SubwayMapGenerator :=
  (run_generate_map (__init__ default_width default_height)).2.1.

Definition generate_map_drawn : list artist := artists generate_map_figure.

Definition generate_map_stations : gmap string (num * num) :=
  stations generate_map_figure.

Definition generate_map_calls : list call :=
  (run_generate_map (__init__ default_width default_height)).2.2.

(** The points an artist is placed at. *)
Definition anchors (a : artist) : list (num * num) :=
  match a with
  | PatchArtist c => [center c]
  | LineArtist l => combine (xdata l) (ydata l)
  | TextArtist t => [(text_x t, text_y t)]
  end.

Definition within (lim : num * num) (v : num) : bool :=
  (lim.1 <=? v)%float && (v <=? lim.2)%float.

(** An artist with an anchor outside the axis limits of the renderer. *)
Definition outside_limits (self : SubwayMapGenerator) (a : artist) : bool :=
  negb (forallb (fun p => within (xlim self) p.1 && within (ylim self) p.2)
          (anchors a)).

(** [CODEBASE_STRUCTURE]: the files of the root and of its directories;
    the nested dicts are kept as lists in the order of the literal. *)
Record directory := {
  files : list string;
  dirs : list (string * list string)
}.

Definition CODEBASE_STRUCTURE : list (string * directory) :=
  [ ("Root",
     {| files := ["cpuinfo"; "meminfo"; "version"; "uptime"; "loadavg";
                  "stat"; "mounts"; "cmdline"; "filesystems"; "swaps";
                  "partitions"; "modules"];
        dirs := [ ("net", ["dev"; "route"; "arp"; "tcp"; "udp"]);
                  ("sys/kernel", ["hostname"; "ostype"; "osrelease";
                                  "version"]);
                  ("devices", ["block"; "character"]);
                  ("self", ["cmdline"; "status"; "stat"; "environ"]);
                  ("[PID]", ["cmdline"; "status"; "stat"; "environ";
                             "maps"]) ] |}) ].

(** Every file name in the structure, directory by directory. *)
Definition structure_files : list string :=
  flat_map (fun entry => files entry.2 ++ flat_map snd (dirs entry.2))
    CODEBASE_STRUCTURE.

(** The texts passed to [add_label] in a call log. *)
Definition label_texts (calls : list call) : list string :=
  omap (fun c => match c with
                 | add_label_call _ _ text _ => Some text
                 | _ => None
                 end) calls.

(** A label that names a directory ends in a slash. *)
Definition is_dir_label (s : string) : bool :=
  String.eqb (String.substring (String.length s - 1) 1 s) "/".

(** ** Auxiliary facts *)

(** Binary64 multiplication is commutative, so [size*1.2] of the code is
    the [1.2*size] of the data model. *)
Lemma float_mul_comm (a b : num) : (a * b = b * a)%float.
Proof.
  apply Prim2SF_inj. rewrite !FloatAxioms.mul_spec. unfold SF64mul, SFmul.
  destruct (Prim2SF a) as [sa|sa| |sa ma ea], (Prim2SF b) as [sb|sb| |sb mb eb];
    try reflexivity; rewrite (xorb_comm sa sb); try reflexivity.
  now rewrite (Pos.mul_comm ma mb), (Z.add_comm ea eb).
Qed.

Lemma artists_ax_add a self : artists (ax_add a self) = artists self ++ [a].
Proof. reflexivity. Qed.

Lemma drawn_app before after d :
  artists after = artists before ++ d -> drawn before after = d.
Proof. intros E. unfold drawn. rewrite E. apply drop_app_length. Qed.

(** The circles of a station, in the order they are added. *)
Lemma draw_station_accepted x y name color is_interchange size self :
  is_color_like color = true ->
  draw_station x y name color is_interchange size self =
  (Ok tt,
   stations_set name (x, y)
     (if is_interchange then
        ax_add (PatchArtist {| center := (x, y); radius := size;
                               circle_color := color; circle_zorder := 4 |})
          (ax_add (PatchArtist {| center := (x, y);
                                  radius := (size * 1.2)%float;
                                  circle_color := "white";
                                  circle_zorder := 3 |}) self)
      else
        ax_add (PatchArtist {| center := (x, y); radius := size;
                               circle_color := color; circle_zorder := 3 |})
          self)).
Proof.
  intros Hcolor. unfold draw_station, new_Circle. rewrite Hcolor.
  destruct is_interchange; reflexivity.
Qed.

Lemma draw_station_rejected x y name color is_interchange size self :
  is_color_like color = false ->
  draw_station x y name color is_interchange size self =
  (Raise ValueError,
   if is_interchange then
     ax_add (PatchArtist {| center := (x, y); radius := (size * 1.2)%float;
                            circle_color := "white"; circle_zorder := 3 |})
       self
   else self).
Proof.
  intros Hcolor. unfold draw_station, new_Circle. rewrite Hcolor.
  destruct is_interchange; reflexivity.
Qed.

Lemma draw_station_artists x y name color is_interchange size self :
  is_color_like color = true ->
  artists (draw_station x y name color is_interchange size self).2 =
  artists self ++
    if is_interchange then
      [ PatchArtist {| center := (x, y); radius := (size * 1.2)%float;
                       circle_color := "white"; circle_zorder := 3 |};
        PatchArtist {| center := (x, y); radius := size;
                       circle_color := color; circle_zorder := 4 |} ]
    else
      [ PatchArtist {| center := (x, y); radius := size;
                       circle_color := color; circle_zorder := 3 |} ].
Proof.
  intros Hcolor. rewrite draw_station_accepted by exact Hcolor.
  destruct is_interchange; simpl; [rewrite <- app_assoc|]; reflexivity.
Qed.

(** Whatever the color, what [draw_station] adds are circles at depth 3
    or 4. *)
Lemma draw_station_adds x y name color is_interchange size self :
  exists d,
    artists (draw_station x y name color is_interchange size self).2 =
    artists self ++ d /\
    Forall (fun a => is_circle a = true /\
                     (zorder a = Some 3%Z \/ zorder a = Some 4%Z)) d.
Proof.
  destruct (is_color_like color) eqn:Hcolor.
  - eexists. split; [apply draw_station_artists, Hcolor|].
    destruct is_interchange;
      repeat (constructor;
              [split; [reflexivity | (by left) || (by right)]|]);
      constructor.
  - rewrite draw_station_rejected by exact Hcolor.
    destruct is_interchange.
    + eexists. split; [apply artists_ax_add|].
      constructor; [split; [reflexivity | by left] | constructor].
    + exists []. split; [symmetry; apply app_nil_r | constructor].
Qed.

Lemma draw_line_cases points color linewidth style self :
  draw_line points color linewidth style self = (Ok tt, self) \/
  draw_line points color linewidth style self = (Raise ValueError, self) \/
  exists xs ys,
    draw_line points color linewidth style self =
    (Ok tt,
     ax_add (LineArtist
               {| xdata := xs; ydata := ys; line_color := color;
                  linewidth := linewidth; linestyle := Some style;
                  line_zorder := 2; solid_capstyle := Some "round" |}) self).
Proof.
  unfold draw_line. destruct (length points <? 2)%nat; [by left|].
  destruct (zip_star points) as [|xs [|ys [|? ?]]]; eauto.
  destruct (is_color_like color && is_linestyle style); eauto.
Qed.

Lemma add_label_accepted x y text kw self :
  label_accepted kw = true ->
  add_label x y text kw self =
  (Ok tt,
   ax_add (TextArtist
             {| text_x := (x + kw_offset_x kw)%float;
                text_y := (y + kw_offset_y kw)%float;
                text_s := text;
                fontsize := kw_fontsize kw;
                ha := Some (kw_ha kw); va := Some (kw_va kw);
                text_zorder := Some 5%Z;
                fontweight := Some (kw_fontweight kw);
                fontstyle := None; text_color := None;
                bbox := if kw_bbox_style kw then Some label_bbox else None |})
     self).
Proof.
  intros Hkw. unfold add_label. rewrite Hkw.
  destruct (kw_bbox_style kw); reflexivity.
Qed.

Lemma add_label_rejected x y text kw self :
  label_accepted kw = false ->
  add_label x y text kw self = (Raise ValueError, self).
Proof.
  intros Hkw. unfold add_label. rewrite Hkw.
  destruct (kw_bbox_style kw); reflexivity.
Qed.

Lemma stations_draw_station x y name color is_interchange size self :
  stations (draw_station x y name color is_interchange size self).2 =
  if is_color_like color then <[name := (x, y)]> (stations self)
  else stations self.
Proof.
  destruct (is_color_like color) eqn:Hcolor.
  - rewrite draw_station_accepted by exact Hcolor.
    destruct is_interchange; reflexivity.
  - rewrite draw_station_rejected by exact Hcolor.
    destruct is_interchange; reflexivity.
Qed.

Lemma stations_add_label x y text kw self :
  stations (add_label x y text kw self).2 = stations self.
Proof.
  destruct (label_accepted kw) eqn:Hkw.
  - rewrite add_label_accepted by exact Hkw. reflexivity.
  - rewrite add_label_rejected by exact Hkw. reflexivity.
Qed.

Lemma stations_legend_entry self item :
  stations (legend_entry self item) = stations self.
Proof. destruct item as [i [label color]]. reflexivity. Qed.

Lemma stations_fold_legend_entry items self :
  stations (fold_left legend_entry items self) = stations self.
Proof.
  revert self. induction items as [|item items IH]; intros self; simpl.
  - reflexivity.
  - rewrite IH. apply stations_legend_entry.
Qed.

(** ** draw_line on fewer than two points *)

(** C1: for every list of fewer than 2 points (whatever the tuples in it
    look like) and every color, width and style, [draw_line] returns
    normally and leaves the renderer, hence its axes and its [stations],
    exactly as it was. *)
Theorem draw_line_short_is_noop
    (points : list (list num)) (color : string) (linewidth : num)
    (style : string) (self : SubwayMapGenerator) :
  (length points < 2)%nat ->
  draw_line points color linewidth style self = (Ok tt, self).
Proof.
  intros Hlen. unfold draw_line.
  apply Nat.ltb_lt in Hlen. rewrite Hlen. reflexivity.
Qed.

(** ** draw_station *)

(** C2, amended: with a color matplotlib accepts, [draw_station] returns
    normally and adds exactly one circle for a regular station, filled
    with the given color and of radius [size], at [(x, y)]; for an
    interchange it adds exactly two circles at [(x, y)]: first a white one
    of radius [1.2*size] at depth 3, then, above it at depth 4, one of
    radius [size] in the given color. *)
Theorem draw_station_circles
    (x y : num) (name color : string) (is_interchange : bool) (size : num)
    (self : SubwayMapGenerator) :
  is_color_like color = true ->
  (draw_station x y name color is_interchange size self).1 = Ok tt /\
  artists (draw_station x y name color is_interchange size self).2 =
  artists self ++
    if is_interchange then
      [ PatchArtist {| center := (x, y); radius := (1.2 * size)%float;
                       circle_color := "white"; circle_zorder := 3 |};
        PatchArtist {| center := (x, y); radius := size;
                       circle_color := color; circle_zorder := 4 |} ]
    else
      [ PatchArtist {| center := (x, y); radius := size;
                       circle_color := color; circle_zorder := 3 |} ].
Proof.
  intros Hcolor. split.
  - rewrite draw_station_accepted by exact Hcolor. reflexivity.
  - rewrite draw_station_artists by exact Hcolor.
    rewrite (float_mul_comm size). reflexivity.
Qed.

(** C6, amended: after [draw_station(x, y, name, ...)] with a color
    matplotlib accepts, the [stations] mapping binds [name] to [(x, y)],
    whatever [is_interchange] and [size] are, and every other key is bound
    as before. *)
Theorem draw_station_records_position
    (x y : num) (name color : string) (is_interchange : bool) (size : num)
    (self : SubwayMapGenerator) :
  is_color_like color = true ->
  stations (draw_station x y name color is_interchange size self).2 !! name
    = Some (x, y) /\
  forall key : string, key <> name ->
    stations (draw_station x y name color is_interchange size self).2 !! key
      = stations self !! key.
Proof.
  intros Hcolor. rewrite stations_draw_station, Hcolor. split.
  - apply lookup_insert_eq.
  - intros key Hne. apply lookup_insert_ne. congruence.
Qed.

(** ** add_label *)

(** C8, amended: with alignments and a font weight matplotlib accepts,
    [add_label] returns normally and adds one text, anchored at exactly
    [(x + offset_x, y + offset_y)]; with [bbox_style] set the text carries
    the padded rounded box (white face, gray edge, alpha 0.9), and without
    it the text carries no box. *)
Theorem add_label_anchor_and_box
    (x y : num) (text : string) (kw : label_kw)
    (self : SubwayMapGenerator) :
  label_accepted kw = true ->
  exists t : Text,
    add_label x y text kw self = (Ok tt, ax_add (TextArtist t) self) /\
    artists (add_label x y text kw self).2 = artists self ++ [TextArtist t] /\
    text_s t = text /\
    text_x t = (x + kw_offset_x kw)%float /\
    text_y t = (y + kw_offset_y kw)%float /\
    bbox t =
      if kw_bbox_style kw then
        Some {| boxstyle := "round,pad=0.3"; facecolor := "white";
                edgecolor := "gray"; alpha := 0.9%float |}
      else None.
Proof.
  intros Hkw. rewrite add_label_accepted by exact Hkw.
  eexists. split; [reflexivity|]. simpl. repeat split.
Qed.

(** ** Only draw_station writes the stations mapping *)

(** C10: [draw_line] (however it ends), [add_label] and [draw_legend]
    leave the [stations] mapping exactly as it was. *)
Theorem stations_only_written_by_draw_station :
  (forall points color linewidth style self,
     stations (draw_line points color linewidth style self).2
       = stations self) /\
  (forall x y text kw self,
     stations (add_label x y text kw self).2 = stations self) /\
  (forall self, stations (draw_legend self) = stations self).
Proof.
  split; [|split].
  - intros points color linewidth style self.
    destruct (draw_line_cases points color linewidth style self)
      as [E | [E | (xs & ys & E)]]; rewrite E; reflexivity.
  - intros x y text kw self. apply stations_add_label.
  - intros self. unfold draw_legend.
    rewrite stations_fold_legend_entry. reflexivity.
Qed.

(** ** The legend *)

Lemma artists_legend_entry self item :
  artists (legend_entry self item) = artists self ++ legend_entry_drawn item.
Proof.
  destruct item as [i [label color]]. unfold legend_entry_drawn, legend_entry.
  rewrite !artists_ax_add, <- app_assoc. reflexivity.
Qed.

Lemma artists_fold_legend_entry items self :
  artists (fold_left legend_entry items self) =
  artists self ++ flat_map legend_entry_drawn items.
Proof.
  revert self. induction items as [|item items IH]; intros self; simpl.
  - symmetry. apply app_nil_r.
  - rewrite IH, artists_legend_entry, <- app_assoc. reflexivity.
Qed.

Lemma artists_draw_legend self :
  artists (draw_legend self) = artists self ++ legend_drawn.
Proof.
  unfold draw_legend.
  rewrite artists_fold_legend_entry, !artists_ax_add, <- !app_assoc.
  f_equal.
Qed.

(** C7: one call to [draw_legend] adds the title block and then exactly
    six entries, in the order System Info, Network, Configuration,
    Devices, Process, Storage; each entry is a line segment in the palette
    color of its line followed by its name as text; the first entry
    starts at [(5, 8)] and each next one lies 2 units below the one
    before. *)
Theorem draw_legend_layout (self : SubwayMapGenerator) :
  artists (draw_legend self) =
  artists self ++
    legend_title ++
    legend_row "System Info Line" (COLORS system_info) 8 ++
    legend_row "Network Line" (COLORS network) 6 ++
    legend_row "Configuration Line" (COLORS config) 4 ++
    legend_row "Devices Line" (COLORS devices) 2 ++
    legend_row "Process Line" (COLORS processes) 0 ++
    legend_row "Storage Line" (COLORS storage) (-2).
Proof. rewrite artists_draw_legend. reflexivity. Qed.

(** ** Depth layering *)

Lemma first_swatch_drawn :
  In first_swatch
     (drawn (__init__ default_width default_height)
            (draw_legend (__init__ default_width default_height))).
Proof. vm_compute. right. right. left. reflexivity. Defined.

(** C3 as stated fails on the legend: the color swatches that
    [draw_legend] draws are lines at depth 2, not 5. *)
Lemma draw_legend_swatch_at_depth_2 :
  In first_swatch
     (drawn (__init__ default_width default_height)
            (draw_legend (__init__ default_width default_height))) /\
  zorder first_swatch = Some 2%Z /\
  zorder first_swatch <> Some 5%Z.
Proof.
  split; [|split].
  - exact first_swatch_drawn.
  - reflexivity.
  - discriminate.
Qed.

(** C3, amended: every polyline [draw_line] draws has depth 2, every
    circle [draw_station] draws has depth 3 or 4, every text [add_label]
    draws has depth 5, and of what [draw_legend] draws every text has
    depth 5 while its color swatches are lines at depth 2. *)
Theorem depth_layering :
  (forall points color linewidth style self a,
     In a (drawn self (draw_line points color linewidth style self).2) ->
     is_line a = true /\ zorder a = Some 2%Z) /\
  (forall x y name color is_interchange size self a,
     In a (drawn self
             (draw_station x y name color is_interchange size self).2) ->
     is_circle a = true /\ (zorder a = Some 3%Z \/ zorder a = Some 4%Z)) /\
  (forall x y text kw self a,
     In a (drawn self (add_label x y text kw self).2) ->
     is_text a = true /\ zorder a = Some 5%Z) /\
  (forall self a,
     In a (drawn self (draw_legend self)) ->
     (is_text a = true /\ zorder a = Some 5%Z) \/
     (is_line a = true /\ zorder a = Some 2%Z)).
Proof.
  split; [|split; [|split]].
  - intros points color linewidth style self a.
    destruct (draw_line_cases points color linewidth style self)
      as [E | [E | (xs & ys & E)]]; rewrite E; simpl.
    + rewrite (drawn_app self self []) by (symmetry; apply app_nil_r).
      intros [].
    + rewrite (drawn_app self self []) by (symmetry; apply app_nil_r).
      intros [].
    + rewrite (drawn_app _ _ _ (artists_ax_add _ self)).
      intros [<- | []]. split; reflexivity.
  - intros x y name color is_interchange size self a.
    destruct (draw_station_adds x y name color is_interchange size self)
      as (d & Hd & Hall).
    rewrite (drawn_app _ _ _ Hd). intros Hin.
    rewrite Forall_forall in Hall. apply Hall, list_elem_of_In, Hin.
  - intros x y text kw self a.
    destruct (label_accepted kw) eqn:Hkw.
    + rewrite add_label_accepted by exact Hkw. simpl.
      rewrite (drawn_app _ _ _ (artists_ax_add _ self)).
      intros [<- | []]. split; reflexivity.
    + rewrite add_label_rejected by exact Hkw. simpl.
      rewrite (drawn_app self self []) by (symmetry; apply app_nil_r).
      intros [].
  - intros self a.
    rewrite (drawn_app _ _ _ (artists_draw_legend self)).
    unfold legend_drawn. simpl.
    intros H. repeat (destruct H as [<- | H]; [auto|]). destruct H.
Qed.

(** ** generate_map: what a run adds *)

Lemma appends_ret : appends (mret tt) [] [].
Proof.
  intros self tr. exists self. split.
  - unfold mret, M_ret. by rewrite app_nil_r.
  - by rewrite app_nil_r.
Qed.

Lemma appends_bind (m : M unit) (k : unit -> M unit) d1 c1 d2 c2 :
  appends m d1 c1 -> appends (k tt) d2 c2 ->
  appends (m ≫= k) (d1 ++ d2) (c1 ++ c2).
Proof.
  intros Hm Hk self tr.
  destruct (Hm self tr) as (self1 & E1 & A1).
  destruct (Hk self1 (tr ++ c1)) as (self2 & E2 & A2).
  exists self2. split.
  - unfold mbind, M_bind. rewrite E1, E2, app_assoc. reflexivity.
  - rewrite A2, A1, app_assoc. reflexivity.
Qed.

Lemma appends_lift_ok {A : Type} (a : A) (k : A -> M unit) d cs :
  appends (k a) d cs -> appends (lift (Ok a) ≫= k) d cs.
Proof. intros Hk self tr. exact (Hk self tr). Qed.

Lemma appends_for_each_nil {A : Type} (body : A -> M unit) :
  appends (for_each [] body) [] [].
Proof. exact appends_ret. Qed.

Lemma appends_for_each_cons {A : Type} (a : A) l (body : A -> M unit)
    d1 c1 d2 c2 :
  appends (body a) d1 c1 -> appends (for_each l body) d2 c2 ->
  appends (for_each (a :: l) body) (d1 ++ d2) (c1 ++ c2).
Proof. intros Ha Hl. exact (appends_bind _ _ _ _ _ _ Ha Hl). Qed.

Lemma appends_modify_ax_add a : appends (modify (ax_add a)) [a] [].
Proof.
  intros self tr. exists (ax_add a self). split.
  - unfold modify. simpl. by rewrite app_nil_r.
  - reflexivity.
Qed.

Lemma appends_modify_fig_facecolor c :
  appends (modify (set_fig_facecolor c)) [] [].
Proof.
  intros self tr. exists (set_fig_facecolor c self). split.
  - unfold modify. simpl. by rewrite app_nil_r.
  - simpl. by rewrite app_nil_r.
Qed.

Lemma appends_modify_ax_facecolor c :
  appends (modify (set_ax_facecolor c)) [] [].
Proof.
  intros self tr. exists (set_ax_facecolor c self). split.
  - unfold modify. simpl. by rewrite app_nil_r.
  - simpl. by rewrite app_nil_r.
Qed.

Lemma appends_draw_station x y name color is_interchange size :
  is_color_like color = true ->
  appends (self_draw_station x y name color is_interchange size)
    (drawn (__init__ default_width default_height)
       (draw_station x y name color is_interchange size
          (__init__ default_width default_height)).2)
    [draw_station_call x y name color is_interchange size].
Proof.
  intros Hcolor self tr.
  exists (draw_station x y name color is_interchange size self).2.
  split.
  - unfold self_draw_station, invoke. cbn [exec fst snd].
    rewrite (draw_station_accepted _ _ _ _ _ _ self Hcolor). reflexivity.
  - rewrite (drawn_app _ _ _
               (draw_station_artists x y name color is_interchange size
                  (__init__ default_width default_height) Hcolor)).
    apply draw_station_artists, Hcolor.
Qed.

Lemma appends_add_label x y text kws :
  label_accepted (kwargs kws) = true ->
  appends (self_add_label x y text kws)
    (drawn (__init__ default_width default_height)
       (add_label x y text (kwargs kws)
          (__init__ default_width default_height)).2)
    [add_label_call x y text (kwargs kws)].
Proof.
  intros Hkw self tr. exists (add_label x y text (kwargs kws) self).2.
  split.
  - unfold self_add_label, invoke. cbn [exec fst snd].
    rewrite (add_label_accepted _ _ _ _ self Hkw). reflexivity.
  - rewrite !add_label_accepted by exact Hkw. cbn [snd].
    rewrite (drawn_app _ _ _ (artists_ax_add _ _)). apply artists_ax_add.
Qed.

Lemma appends_draw_legend :
  appends self_draw_legend legend_drawn [draw_legend_call].
Proof.
  intros self tr. exists (draw_legend self). split; [reflexivity|].
  apply artists_draw_legend.
Qed.

Lemma appends_draw_line points color linewidth style xs ys :
  (length points <? 2)%nat = false ->
  zip_star points = [xs; ys] ->
  is_color_like color && is_linestyle style = true ->
  appends (self_draw_line points color linewidth style)
    [ LineArtist
        {| xdata := xs; ydata := ys; line_color := color;
           linewidth := linewidth; linestyle := Some style;
           line_zorder := 2; solid_capstyle := Some "round" |} ]
    [draw_line_call points color linewidth style].
Proof.
  intros Hlen Hzip Hok self tr. eexists. split.
  - unfold self_draw_line, invoke. simpl. unfold draw_line.
    rewrite Hlen, Hzip, Hok. reflexivity.
  - reflexivity.
Qed.

(** One step through the body of [generate_map]: a bind, a loop pass, or
    one of the calls above. *)
Ltac appends_step :=
  cbv beta iota;
  lazymatch goal with
  | |- appends (lift ?r ≫= _) _ _ =>
      let r' := eval hnf in r in
      change r with r'; eapply appends_lift_ok
  | |- appends (_ ≫= _) _ _ => eapply appends_bind
  | |- appends (for_each ?l _) _ _ =>
      let l' := eval hnf in l in
      lazymatch l' with
      | [] => change l with l'; eapply appends_for_each_nil
      | ?a :: ?l'' =>
          let a' := eval hnf in a in
          change l with (a' :: l''); eapply appends_for_each_cons
      end
  | |- appends (self_draw_station _ _ _ _ _ _) _ _ =>
      eapply appends_draw_station; reflexivity
  | |- appends (self_add_label _ _ _ _) _ _ =>
      eapply appends_add_label; reflexivity
  | |- appends self_draw_legend _ _ => eapply appends_draw_legend
  | |- appends (self_draw_line _ _ _ _) _ _ =>
      eapply appends_draw_line; [reflexivity | reflexivity | reflexivity]
  | |- appends (modify (ax_add _)) _ _ => eapply appends_modify_ax_add
  | |- appends (modify (set_fig_facecolor _)) _ _ =>
      eapply appends_modify_fig_facecolor
  | |- appends (modify (set_ax_facecolor _)) _ _ =>
      eapply appends_modify_ax_facecolor
  end.

(** [generate_map] returns normally on every renderer; the artists it adds
    and the calls it makes do not depend on the renderer. *)
Lemma generate_map_appends :
  exists d cs, appends generate_map d cs.
Proof.
  do 2 eexists. unfold generate_map, trunk_station, branch_station.
  repeat appends_step.
Qed.

(** ** generate_map: station names *)

(** C4: a run of [generate_map] on a freshly constructed renderer returns
    normally, the names it passes to [draw_station] are pairwise distinct,
    and the [stations] mapping ends with as many entries as there were
    [draw_station] calls (39). *)
Theorem generate_map_station_names_distinct (width height : num) :
  exists self' calls,
    run_generate_map (__init__ width height) = (Ok tt, (self', calls)) /\
    NoDup (station_names calls) /\
    size (stations self') = length (station_names calls) /\
    length (station_names calls) = 39%nat.
Proof.
  exists (run_generate_map (__init__ width height)).2.1,
         (run_generate_map (__init__ width height)).2.2.
  split; [|split; [|split]].
  - vm_compute. reflexivity.
  - apply (bool_decide_unpack _). vm_compute. reflexivity.
  - vm_compute. reflexivity.
  - vm_compute. reflexivity.
Qed.

(** ** main *)


(** ** The transposition behind draw_line *)

Lemma heads_None rows :
  heads rows = None -> Exists (fun r => r = []) rows.
Proof.
  unfold heads. induction rows as [|r rows IH]; simpl; [discriminate|].
  destruct r as [|x r]; simpl; [by left|].
  destruct (mapM head rows); simpl; [discriminate|]. right. by apply IH.
Qed.

Lemma heads_Some rows h :
  heads rows = Some h ->
  Forall (fun r => r <> []) rows /\ h = column 0 rows.
Proof.
  unfold heads. revert h. induction rows as [|r rows IH]; intros h; simpl.
  - intros [= <-]. by split.
  - destruct r as [|x r]; simpl; [discriminate|].
    destruct (mapM head rows) as [h'|]; simpl; [|discriminate].
    intros [= <-]. destruct (IH h' eq_refl) as [Hne ->].
    split; [by constructor | reflexivity].
Qed.

Lemma min_arity_empty_row rows :
  Exists (fun r => r = []) rows -> min_arity rows = 0%nat.
Proof.
  induction 1 as [r rows -> | r rows Hex IH].
  - by destruct rows.
  - destruct rows as [|q rows]; [inversion Hex|].
    change (Nat.min (length r) (min_arity (q :: rows)) = 0%nat).
    rewrite IH. lia.
Qed.

Lemma min_arity_tail rows :
  min_arity (map (@tail num) rows) = pred (min_arity rows).
Proof.
  induction rows as [|r rows IH]; [reflexivity|].
  destruct rows as [|q rows].
  - by destruct r.
  - change (Nat.min (length (tail r))
              (min_arity (map (@tail num) (q :: rows))) =
            pred (Nat.min (length r) (min_arity (q :: rows)))).
    rewrite IH. destruct r; simpl length; lia.
Qed.

Lemma min_arity_nonempty_rows rows :
  rows <> [] -> Forall (fun r => r <> []) rows -> (0 < min_arity rows)%nat.
Proof.
  intros Hrows Hall. induction Hall as [|r rows Hr _ IH]; [done|].
  assert (0 < length r)%nat by (destruct r; [done | simpl; lia]).
  destruct rows as [|q rows]; simpl in *; [done|].
  specialize (IH ltac:(done)). lia.
Qed.

Lemma length_zip_rows n rows :
  rows <> [] -> length (zip_rows n rows) = Nat.min n (min_arity rows).
Proof.
  revert rows. induction n as [|n IH]; intros rows Hrows; [reflexivity|].
  simpl. destruct (heads rows) as [h|] eqn:Hh.
  - apply heads_Some in Hh as [Hne _].
    pose proof (min_arity_nonempty_rows rows Hrows Hne).
    simpl. rewrite IH by (by destruct rows). rewrite min_arity_tail.
    destruct (min_arity rows) as [|m]; [lia | reflexivity].
  - rewrite (min_arity_empty_row rows (heads_None rows Hh)). simpl. lia.
Qed.

Lemma min_arity_le_first r rows : (min_arity (r :: rows) <= length r)%nat.
Proof. destruct rows; simpl; lia. Qed.

Lemma length_zip_star rows : length (zip_star rows) = min_arity rows.
Proof.
  destruct rows as [|r rows]; [reflexivity|]. unfold zip_star.
  rewrite length_zip_rows by done.
  pose proof (min_arity_le_first r rows). lia.
Qed.

Lemma column_tail j rows :
  column j (map (@tail num) rows) = column (S j) rows.
Proof.
  unfold column. rewrite map_map. apply map_ext.
  intros [|x r]; [by destruct j | reflexivity].
Qed.

Lemma zip_rows_lookup n rows j :
  (j < length (zip_rows n rows))%nat ->
  zip_rows n rows !! j = Some (column j rows).
Proof.
  revert rows j. induction n as [|n IH]; intros rows j; simpl; [lia|].
  destruct (heads rows) as [h|] eqn:Hh; simpl; [|lia].
  apply heads_Some in Hh as [_ ->].
  destruct j as [|j]; simpl; [reflexivity|].
  intros Hj. rewrite IH by lia. by rewrite column_tail.
Qed.

Lemma zip_star_lookup rows j :
  (j < min_arity rows)%nat -> zip_star rows !! j = Some (column j rows).
Proof.
  rewrite <- length_zip_star. destruct rows as [|r rows]; simpl; [lia|].
  apply zip_rows_lookup.
Qed.

(** With exactly two coordinates in the shortest tuple the transposition
    is the pair of the first and the second coordinates. *)
Lemma zip_star_two rows :
  min_arity rows = 2%nat -> zip_star rows = [column 0 rows; column 1 rows].
Proof.
  intros Hmin.
  pose proof (length_zip_star rows) as Hlen. rewrite Hmin in Hlen.
  pose proof (zip_star_lookup rows 0 ltac:(lia)) as H0.
  pose proof (zip_star_lookup rows 1 ltac:(lia)) as H1.
  destruct (zip_star rows) as [|xs [|ys [|? ?]]]; simpl in *; try lia.
  congruence.
Qed.

(** X1: on two or more points [draw_line] draws iff the shortest tuple
    has exactly two coordinates and matplotlib accepts the color and the
    line style: then it adds one polyline through the first two
    coordinates of every point (further coordinates are dropped
    silently); otherwise it raises ValueError and leaves the renderer as
    it was. *)
Theorem draw_line_by_arity
    (points : list (list num)) (color : string) (linewidth : num)
    (style : string) (self : SubwayMapGenerator) :
  (2 <= length points)%nat ->
  draw_line points color linewidth style self =
  if (min_arity points =? 2)%nat && is_color_like color && is_linestyle style
  then
    (Ok tt,
     ax_add (LineArtist
               {| xdata := column 0 points; ydata := column 1 points;
                  line_color := color; linewidth := linewidth;
                  linestyle := Some style; line_zorder := 2;
                  solid_capstyle := Some "round" |}) self)
  else (Raise ValueError, self).
Proof.
  intros Hlen. unfold draw_line.
  destruct (Nat.ltb_spec (length points) 2) as [|_]; [lia|].
  destruct (Nat.eqb_spec (min_arity points) 2) as [Hmin | Hmin].
  - rewrite (zip_star_two points Hmin). simpl.
    destruct (is_color_like color && is_linestyle style); reflexivity.
  - rewrite <- length_zip_star in Hmin.
    destruct (zip_star points) as [|xs [|ys [|? ?]]]; simpl in Hmin;
      try reflexivity. lia.
Qed.

Lemma min_arity_points pts :
  (1 <= length pts)%nat -> min_arity (map point pts) = 2%nat.
Proof.
  induction pts as [|p pts IH]; simpl; [lia|]. intros _.
  destruct pts as [|q pts]; [reflexivity|].
  change (Nat.min 2 (min_arity (map point (q :: pts))) = 2%nat).
  rewrite IH by (simpl; lia). reflexivity.
Qed.

(** X2: on two or more well-formed points, with a color and a line style
    matplotlib accepts, [draw_line] returns normally and adds exactly one
    polyline, whose x data are the first and whose y data are the second
    coordinates, in the order of the points. *)
Theorem draw_line_through_points
    (pts : list (num * num)) (color : string) (linewidth : num)
    (style : string) (self : SubwayMapGenerator) :
  (2 <= length pts)%nat ->
  is_color_like color = true ->
  is_linestyle style = true ->
  draw_line (map point pts) color linewidth style self =
  (Ok tt,
   ax_add (LineArtist
             {| xdata := map fst pts; ydata := map snd pts;
                line_color := color; linewidth := linewidth;
                linestyle := Some style; line_zorder := 2;
                solid_capstyle := Some "round" |}) self).
Proof.
  intros Hlen Hcolor Hstyle.
  rewrite draw_line_by_arity by (rewrite length_map; lia).
  rewrite min_arity_points, Hcolor, Hstyle by lia. simpl.
  unfold column. rewrite !map_map. reflexivity.
Qed.

(** ** Sequences of method calls *)

Lemma replay_cons c calls self :
  replay (c :: calls) self = replay calls (exec c self).2.
Proof. reflexivity. Qed.

Lemma same_settings_refl s : same_settings s s.
Proof. by repeat split. Qed.

Lemma same_settings_trans s1 s2 s3 :
  same_settings s1 s2 -> same_settings s2 s3 -> same_settings s1 s3.
Proof.
  unfold same_settings. intros (?&?&?&?&?&?) (?&?&?&?&?&?).
  repeat split; congruence.
Qed.

Lemma same_settings_fold_legend_entry items self :
  same_settings self (fold_left legend_entry items self).
Proof.
  revert self. induction items as [|[i [label color]] items IH]; intros self.
  - apply same_settings_refl.
  - simpl. eapply same_settings_trans; [|apply IH]. by repeat split.
Qed.

(** The artists a call adds, behind those already there. *)
Lemma exec_artists c self :
  exists d, artists (exec c self).2 = artists self ++ d.
Proof.
  destruct c as [x y name color is_interchange size
                | points color linewidth style | x y text kw | ];
    cbn [exec snd].
  - destruct (draw_station_adds x y name color is_interchange size self)
      as (d & Hd & _). by exists d.
  - destruct (draw_line_cases points color linewidth style self)
      as [E | [E | (xs & ys & E)]]; rewrite E; simpl.
    + exists []. by rewrite app_nil_r.
    + exists []. by rewrite app_nil_r.
    + by eexists.
  - destruct (label_accepted kw) eqn:Hkw.
    + rewrite add_label_accepted by exact Hkw. by eexists.
    + rewrite add_label_rejected by exact Hkw.
      exists []. simpl. by rewrite app_nil_r.
  - eexists. apply artists_draw_legend.
Qed.

Lemma exec_same_settings c self : same_settings self (exec c self).2.
Proof.
  destruct c as [x y name color is_interchange size
                | points color linewidth style | x y text kw | ];
    cbn [exec snd].
  - destruct (is_color_like color) eqn:Hcolor.
    + rewrite draw_station_accepted by exact Hcolor.
      destruct is_interchange; by repeat split.
    + rewrite draw_station_rejected by exact Hcolor.
      destruct is_interchange; by repeat split.
  - destruct (draw_line_cases points color linewidth style self)
      as [E | [E | (xs & ys & E)]]; rewrite E; by repeat split.
  - destruct (label_accepted kw) eqn:Hkw.
    + rewrite add_label_accepted by exact Hkw. by repeat split.
    + rewrite add_label_rejected by exact Hkw. by repeat split.
  - unfold draw_legend.
    eapply same_settings_trans; [|apply same_settings_fold_legend_entry].
    by repeat split.
Qed.

Lemma exec_stations c self :
  stations (exec c self).2 = stations_step (stations self) c.
Proof.
  destruct c as [x y name color is_interchange size
                | points color linewidth style | x y text kw | ];
    cbn [exec snd stations_step].
  - apply stations_draw_station.
  - destruct (draw_line_cases points color linewidth style self)
      as [E | [E | (xs & ys & E)]]; rewrite E; reflexivity.
  - apply stations_add_label.
  - unfold draw_legend. by rewrite stations_fold_legend_entry.
Qed.

(** X3: a method call that raises raises ValueError and leaves the
    renderer exactly as it was, with one exception: [draw_station] for an
    interchange with a rejected color has already put the white ring on
    the axes (and has recorded no station). *)
Theorem raising_call_leaves_renderer
    (c : call) (self : SubwayMapGenerator) (e : exn) :
  (exec c self).1 = Raise e ->
  e = ValueError /\
  ((exec c self).2 = self \/
   exists x y name color size,
     c = draw_station_call x y name color true size /\
     is_color_like color = false /\
     (exec c self).2 = ax_add (white_ring x y size) self).
Proof.
  destruct c as [x y name color is_interchange size
                | points color linewidth style | x y text kw | ];
    cbn [exec fst snd].
  - destruct (is_color_like color) eqn:Hcolor.
    + rewrite draw_station_accepted by exact Hcolor. discriminate.
    + rewrite draw_station_rejected by exact Hcolor. intros [= <-].
      split; [reflexivity|]. destruct is_interchange; [right | by left].
      by exists x, y, name, color, size.
  - destruct (draw_line_cases points color linewidth style self)
      as [E | [E | (xs & ys & E)]]; rewrite E; simpl;
      [discriminate | | discriminate].
    intros [= <-]. split; [reflexivity | by left].
  - destruct (label_accepted kw) eqn:Hkw.
    + rewrite add_label_accepted by exact Hkw. discriminate.
    + rewrite add_label_rejected by exact Hkw. intros [= <-].
      split; [reflexivity | by left].
  - discriminate.
Qed.

(** X4: whatever methods are called, in whatever order and with whatever
    arguments, and however each call ends, the artists already on the
    axes stay where they are (new ones only come behind them) and the
    figure size, the axis limits, the axis switch and the face colors are
    never touched. *)
Theorem method_calls_only_append
    (calls : list call) (self : SubwayMapGenerator) :
  (exists d, artists (replay calls self) = artists self ++ d) /\
  same_settings self (replay calls self).
Proof.
  revert self. induction calls as [|c calls IH]; intros self.
  - split; [exists []; symmetry; apply app_nil_r | apply same_settings_refl].
  - rewrite replay_cons. destruct (IH (exec c self).2) as [[d2 Hd2] Hs2].
    destruct (exec_artists c self) as [d1 Hd1]. split.
    + exists (d1 ++ d2). by rewrite Hd2, Hd1, app_assoc.
    + eapply same_settings_trans; [apply exec_same_settings | exact Hs2].
Qed.

(** X5: drawing a station again under the same name replaces its recorded
    position (the mapping is as if only the second call had been made),
    but the circles of the first call stay on the axes. *)
Theorem draw_station_same_name_overwrites
    (x1 y1 x2 y2 : num) (name color1 color2 : string)
    (is_interchange1 is_interchange2 : bool) (size1 size2 : num)
    (self : SubwayMapGenerator) :
  is_color_like color1 = true ->
  is_color_like color2 = true ->
  let first :=
    (draw_station x1 y1 name color1 is_interchange1 size1 self).2 in
  let twice :=
    (draw_station x2 y2 name color2 is_interchange2 size2 first).2 in
  let once :=
    (draw_station x2 y2 name color2 is_interchange2 size2 self).2 in
  stations twice = stations once /\
  stations twice !! name = Some (x2, y2) /\
  artists twice = artists first ++ drawn self once /\
  drawn self first <> [].
Proof.
  intros Hc1 Hc2 first twice once. subst first twice once.
  rewrite !stations_draw_station, Hc1, Hc2, insert_insert_eq.
  rewrite (drawn_app _ _ _ (draw_station_artists _ _ _ _ _ _ self Hc2)).
  rewrite (drawn_app _ _ _ (draw_station_artists _ _ _ _ _ _ self Hc1)).
  repeat split.
  - apply lookup_insert_eq.
  - apply draw_station_artists, Hc2.
  - by destruct is_interchange1.
Qed.

Lemma exec_station_marked c self :
  station_marked self -> station_marked (exec c self).2.
Proof.
  intros Hinv name pos. rewrite exec_stations.
  destruct (exec_artists c self) as [d Hd].
  assert (Hold : stations self !! name = Some pos ->
                 exists ci, In (PatchArtist ci) (artists (exec c self).2) /\
                            center ci = pos).
  { intros Hl. destruct (Hinv name pos Hl) as (ci & Hin & Hc).
    exists ci. split; [|exact Hc]. rewrite Hd. apply in_or_app. by left. }
  destruct c as [x y name' color is_interchange size
                | points color linewidth style | x y text kw | ];
    cbn [stations_step]; try exact Hold.
  destruct (is_color_like color) eqn:Hcolor; [|exact Hold].
  destruct (decide (name' = name)) as [-> | Hne].
  - rewrite lookup_insert_eq. intros [= <-].
    exists {| center := (x, y); radius := size; circle_color := color;
              circle_zorder := if is_interchange then 4 else 3 |}.
    split; [|reflexivity]. cbn [exec snd].
    rewrite draw_station_artists by exact Hcolor.
    apply in_or_app. right. destruct is_interchange; simpl; auto.
  - rewrite lookup_insert_ne by done. exact Hold.
Qed.

(** X6: every recorded station has a circle centred at its recorded
    position, and no sequence of method calls breaks this, however the
    calls end. *)
Theorem replay_keeps_stations_marked
    (calls : list call) (self : SubwayMapGenerator) :
  station_marked self -> station_marked (replay calls self).
Proof.
  revert self. induction calls as [|c calls IH]; intros self Hinv.
  - exact Hinv.
  - rewrite replay_cons. apply IH, exec_station_marked, Hinv.
Qed.

Lemma station_marked_init width height :
  station_marked (__init__ width height).
Proof. intros name pos. simpl. rewrite lookup_empty. discriminate. Qed.

(** ** The stations mapping after a sequence of calls *)

Lemma stations_replay calls self :
  stations (replay calls self) = stations_after calls (stations self).
Proof.
  unfold stations_after. revert self.
  induction calls as [|c calls IH]; intros self; [reflexivity|].
  rewrite replay_cons, IH, exec_stations. reflexivity.
Qed.

Lemma recorded_names_cons c calls :
  recorded_names (c :: calls) = recorded_names [c] ++ recorded_names calls.
Proof.
  unfold recorded_names. simpl.
  destruct c as [? ? ? color ? ?| | |]; try reflexivity.
  by destruct (is_color_like color).
Qed.

Lemma dom_stations_step m c :
  dom (stations_step m c) =@{gset string}
  dom m ∪ list_to_set (recorded_names [c]).
Proof.
  destruct c as [? ? ? color ? ?| | |]; simpl.
  - destruct (is_color_like color); simpl.
    + rewrite dom_insert_L, (right_id_L ∅ (∪)). apply (comm_L (∪)).
    + by rewrite (right_id_L ∅ (∪)).
  - by rewrite (right_id_L ∅ (∪)).
  - by rewrite (right_id_L ∅ (∪)).
  - by rewrite (right_id_L ∅ (∪)).
Qed.

(** X7: the names bound in [stations] after any sequence of calls are
    those bound before together with the names passed to [draw_station]
    with an accepted color; no call ever removes a name. *)
Theorem replay_stations_dom (calls : list call) (self : SubwayMapGenerator) :
  dom (stations (replay calls self)) =@{gset string}
  dom (stations self) ∪ list_to_set (recorded_names calls).
Proof.
  revert self. induction calls as [|c calls IH]; intros self.
  - simpl. by rewrite (right_id_L ∅ (∪)).
  - rewrite replay_cons, IH, exec_stations, dom_stations_step.
    rewrite (recorded_names_cons c calls), list_to_set_app_L.
    by rewrite (assoc_L (∪)).
Qed.

Lemma size_list_to_set_le (l : list string) :
  size (list_to_set l : gset string) <= length l.
Proof.
  induction l as [|a l IH]; [by rewrite list_to_set_nil, size_empty|].
  rewrite list_to_set_cons. simpl length.
  rewrite size_union_alt, size_singleton.
  pose proof (subseteq_size (list_to_set l ∖ {[a]})
                (list_to_set l : gset string)
                (subseteq_difference_l _ _ _ (reflexivity _))).
  lia.
Qed.

Lemma size_list_to_set_NoDup (l : list string) :
  size (list_to_set l : gset string) = length l <-> NoDup l.
Proof.
  split; [|apply size_list_to_set].
  induction l as [|a l IH]; [constructor|].
  rewrite list_to_set_cons. simpl length. intros Hsize.
  pose proof (size_list_to_set_le l) as Hle.
  destruct (decide (a ∈ l)) as [Hin | Hnin].
  - assert ({[a]} ∪ list_to_set l =@{gset string} list_to_set l) as E.
    { apply subseteq_union_1_L, singleton_subseteq_l, elem_of_list_to_set, Hin. }
    rewrite E in Hsize. lia.
  - rewrite size_union in Hsize
      by (apply disjoint_singleton_l; by rewrite elem_of_list_to_set).
    rewrite size_singleton in Hsize.
    constructor; [exact Hnin | apply IH; lia].
Qed.

(** X8: on a renderer that starts without stations, the mapping ends with
    at most as many entries as there were [draw_station] calls with an
    accepted color, and with exactly as many iff no name was used twice
    among them. *)
Theorem replay_stations_size
    (calls : list call) (self : SubwayMapGenerator) :
  stations self = ∅ ->
  size (stations (replay calls self)) <= length (recorded_names calls) /\
  (size (stations (replay calls self)) = length (recorded_names calls) <->
   NoDup (recorded_names calls)).
Proof.
  intros Hempty.
  rewrite <- size_dom, replay_stations_dom, Hempty, dom_empty_L.
  rewrite (left_id_L ∅ (∪)).
  split; [apply size_list_to_set_le | apply size_list_to_set_NoDup].
Qed.

(** ** generate_map on a renderer that is not fresh *)

Lemma stations_step_union m c :
  stations_step m c = stations_step ∅ c ∪ m.
Proof.
  destruct c as [x y name color ? ?| | |]; simpl;
    try (by rewrite (left_id_L ∅ (∪))).
  destruct (is_color_like color); [|by rewrite (left_id_L ∅ (∪))].
  rewrite insert_empty. apply insert_union_singleton_l.
Qed.

(** New positions override old ones of the same name; all other entries
    survive. *)
Lemma stations_after_union calls m :
  stations_after calls m = stations_after calls ∅ ∪ m.
Proof.
  unfold stations_after. revert m.
  induction calls as [|c calls IH]; intros m; simpl.
  - by rewrite (left_id_L ∅ (∪)).
  - rewrite (IH (stations_step m c)), (IH (stations_step ∅ c)).
    rewrite (stations_step_union m c), (assoc_L (∪)). reflexivity.
Qed.

Lemma stations_after_app cs1 cs2 m :
  stations_after (cs1 ++ cs2) m = stations_after cs2 (stations_after cs1 m).
Proof. apply fold_left_app. Qed.

Lemma records_ret : records (mret tt) [].
Proof.
  intros self tr. exists self. split; [|reflexivity].
  unfold mret, M_ret. by rewrite app_nil_r.
Qed.

Lemma records_bind (m : M unit) (k : unit -> M unit) c1 c2 :
  records m c1 -> records (k tt) c2 -> records (m ≫= k) (c1 ++ c2).
Proof.
  intros Hm Hk self tr.
  destruct (Hm self tr) as (self1 & E1 & S1).
  destruct (Hk self1 (tr ++ c1)) as (self2 & E2 & S2).
  exists self2. split.
  - unfold mbind, M_bind. rewrite E1, E2, app_assoc. reflexivity.
  - rewrite S2, S1, stations_after_app. reflexivity.
Qed.

Lemma records_lift_ok {A : Type} (a : A) (k : A -> M unit) cs :
  records (k a) cs -> records (lift (Ok a) ≫= k) cs.
Proof. intros Hk self tr. exact (Hk self tr). Qed.

Lemma records_for_each_nil {A : Type} (body : A -> M unit) :
  records (for_each [] body) [].
Proof. exact records_ret. Qed.

Lemma records_for_each_cons {A : Type} (a : A) l (body : A -> M unit) c1 c2 :
  records (body a) c1 -> records (for_each l body) c2 ->
  records (for_each (a :: l) body) (c1 ++ c2).
Proof. intros Ha Hl. exact (records_bind _ _ _ _ Ha Hl). Qed.

Lemma records_modify (f : SubwayMapGenerator -> SubwayMapGenerator) :
  (forall self, stations (f self) = stations self) ->
  records (modify f) [].
Proof.
  intros Hf self tr. exists (f self). split; [|apply Hf].
  unfold modify. simpl. by rewrite app_nil_r.
Qed.

Lemma records_invoke (c : call) :
  (forall self, (exec c self).1 = Ok tt) -> records (invoke c) [c].
Proof.
  intros Hok self tr. exists (exec c self).2. split.
  - unfold invoke. cbn [fst snd]. specialize (Hok self).
    destruct (exec c self) as [r self']. simpl in Hok. by subst r.
  - apply exec_stations.
Qed.

Lemma draw_station_returns x y name color is_interchange size :
  is_color_like color = true ->
  forall self,
    (exec (draw_station_call x y name color is_interchange size) self).1
    = Ok tt.
Proof.
  intros Hcolor self. cbn [exec].
  rewrite draw_station_accepted by exact Hcolor. reflexivity.
Qed.

Lemma add_label_returns x y text kw :
  label_accepted kw = true ->
  forall self, (exec (add_label_call x y text kw) self).1 = Ok tt.
Proof.
  intros Hkw self. cbn [exec].
  rewrite add_label_accepted by exact Hkw. reflexivity.
Qed.

Lemma draw_line_returns points color linewidth style :
  (2 <= length points)%nat ->
  (min_arity points =? 2)%nat && is_color_like color && is_linestyle style
    = true ->
  forall self,
    (exec (draw_line_call points color linewidth style) self).1 = Ok tt.
Proof.
  intros Hlen Hok self. cbn [exec].
  rewrite draw_line_by_arity by exact Hlen. rewrite Hok. reflexivity.
Qed.

Ltac records_step :=
  cbv beta iota;
  lazymatch goal with
  | |- records (lift ?r ≫= _) _ =>
      let r' := eval hnf in r in
      change r with r'; eapply records_lift_ok
  | |- records (_ ≫= _) _ => eapply records_bind
  | |- records (for_each ?l _) _ =>
      let l' := eval hnf in l in
      lazymatch l' with
      | [] => change l with l'; eapply records_for_each_nil
      | ?a :: ?l'' =>
          let a' := eval hnf in a in
          change l with (a' :: l''); eapply records_for_each_cons
      end
  | |- records (self_draw_line _ _ _ _) _ =>
      eapply records_invoke;
      apply draw_line_returns; [simpl; lia | reflexivity]
  | |- records (self_draw_station _ _ _ _ _ _) _ =>
      eapply records_invoke; apply draw_station_returns; reflexivity
  | |- records (self_add_label _ _ _ _) _ =>
      eapply records_invoke; apply add_label_returns; reflexivity
  | |- records self_draw_legend _ =>
      eapply records_invoke; intros ?; reflexivity
  | |- records (modify _) _ =>
      eapply records_modify; intros ?; reflexivity
  end.

Lemma generate_map_records : exists cs, records generate_map cs.
Proof.
  eexists. unfold generate_map, trunk_station, branch_station.
  repeat records_step.
Qed.

Lemma generate_map_run (self : SubwayMapGenerator) :
  exists self',
    run_generate_map self = (Ok tt, (self', generate_map_calls)) /\
    artists self' = artists self ++ generate_map_drawn /\
    stations self' = generate_map_stations ∪ stations self.
Proof.
  destruct generate_map_appends as (d & cs & Happ).
  destruct generate_map_records as (cs' & Hrec).
  destruct (Happ (__init__ default_width default_height) [])
    as (f1 & Ef1 & Af1).
  destruct (Hrec (__init__ default_width default_height) [])
    as (f2 & Ef2 & Sf2).
  rewrite Ef1 in Ef2. injection Ef2 as Ef Ecs.
  simpl in Ecs. subst f2 cs'.
  assert (generate_map_figure = f1) as Hfig.
  { unfold generate_map_figure, run_generate_map. rewrite Ef1. reflexivity. }
  assert (generate_map_calls = cs) as Hcalls.
  { unfold generate_map_calls, run_generate_map. rewrite Ef1. reflexivity. }
  destruct (Happ self []) as (s1 & Es1 & As1).
  destruct (Hrec self []) as (s2 & Es2 & Ss2).
  rewrite Es1 in Es2. injection Es2 as Es. subst s2.
  exists s1. unfold generate_map_drawn, generate_map_stations.
  rewrite Hfig, Hcalls. split; [exact Es1|]. split.
  - rewrite As1, Af1. reflexivity.
  - rewrite Ss2, Sf2, (stations_after_union cs (stations self)).
    rewrite (stations_after_union cs
               (stations (__init__ default_width default_height))).
    change (stations (__init__ default_width default_height))
      with (∅ : gmap string (num * num)).
    rewrite (right_id_L ∅ (∪)). reflexivity.
Qed.

Lemma generate_map_counts :
  length generate_map_calls = 109%nat /\
  length generate_map_drawn = 131%nat /\
  size generate_map_stations = 39%nat.
Proof.
  split; [|split].
  - vm_compute. reflexivity.
  - vm_compute. reflexivity.
  - vm_compute. reflexivity.
Qed.

(** X9: on every renderer, fresh or not, [generate_map] returns normally
    and makes the same 109 calls; it puts the same 131 artists behind
    those already on the axes, and its 39 stations override entries of
    the same name while every other entry of [stations] survives. *)
Theorem generate_map_on_any_renderer (self : SubwayMapGenerator) :
  exists self',
    run_generate_map self = (Ok tt, (self', generate_map_calls)) /\
    artists self' = artists self ++ generate_map_drawn /\
    stations self' = generate_map_stations ∪ stations self /\
    length generate_map_calls = 109%nat /\
    length generate_map_drawn = 131%nat /\
    size generate_map_stations = 39%nat.
Proof.
  destruct (generate_map_run self) as (self' & Erun & Hartists & Hstations).
  exists self'. split; [exact Erun|]. split; [exact Hartists|].
  split; [exact Hstations | exact generate_map_counts].
Qed.

(** X10: calling [generate_map] a second time draws the whole map once
    more on top (every artist is on the axes twice), while [stations] is
    as after the first call. *)
Theorem generate_map_twice (self : SubwayMapGenerator) :
  exists once twice,
    run_generate_map self = (Ok tt, (once, generate_map_calls)) /\
    run_generate_map once = (Ok tt, (twice, generate_map_calls)) /\
    artists twice =
      artists self ++ generate_map_drawn ++ generate_map_drawn /\
    stations twice = stations once.
Proof.
  destruct (generate_map_run self) as (once & E1 & A1 & S1).
  destruct (generate_map_run once) as (twice & E2 & A2 & S2).
  exists once, twice. split; [exact E1|]. split; [exact E2|]. split.
  - rewrite A2, A1, app_assoc. reflexivity.
  - rewrite S2, S1, (assoc_L (∪)), (idemp_L (∪)). reflexivity.
Qed.

(** ** What main prints and saves *)



(** ** The drawing against the axis limits *)

(** X12: of everything [generate_map] draws, on a renderer whose limits
    are the [0..100] of [__init__], exactly the last legend entry (Storage
    Line, at y = -2) is placed outside the axis limits. *)
Theorem generate_map_outside_limits (self : SubwayMapGenerator) :
  xlim self = (0, 100)%float ->
  ylim self = (0, 100)%float ->
  List.filter (outside_limits self) generate_map_drawn =
  legend_row "Storage Line" (COLORS storage) (-2).
Proof.
  intros Hx Hy.
  assert (forall a, outside_limits self a =
                    outside_limits (__init__ default_width default_height) a)
    as Hout by (intros a; unfold outside_limits; by rewrite Hx, Hy).
  rewrite (List.filter_ext _ _ Hout). vm_compute. reflexivity.
Qed.

(** ** The drawing against CODEBASE_STRUCTURE *)

(** X13: the labels [generate_map] draws for files (those not naming a
    directory) are exactly the files listed in [CODEBASE_STRUCTURE], each
    drawn once: none is missing and none is drawn that is not listed. *)
Theorem labels_match_structure :
  List.filter (fun s => negb (is_dir_label s)) (label_texts generate_map_calls)
  ≡ₚ structure_files.
Proof. apply (bool_decide_unpack _). vm_compute. reflexivity. Qed.

End Matplotlib.

(** ** The properties at concrete calls *)

Lemma draw_line_short_is_noop_witness :
  (length [[1; 2; 3]%float] < 2)%nat /\
  draw_line no_further_color [[1; 2; 3]%float] "red" 4%float "--"
    (__init__ 20 16) =
  (Ok tt, __init__ 20 16).
Proof.
  split; [simpl; lia | apply draw_line_short_is_noop; simpl; lia].
Defined.

Lemma draw_station_circles_witness :
  is_color_like no_further_color "#E63946" = true /\
  artists (draw_station no_further_color 50 58 "net/" "#E63946" true 0.8
             (__init__ 20 16)).2 =
  [ PatchArtist {| center := (50, 58)%float; radius := (1.2 * 0.8)%float;
                   circle_color := "white"; circle_zorder := 3 |};
    PatchArtist {| center := (50, 58)%float; radius := 0.8%float;
                   circle_color := "#E63946"; circle_zorder := 4 |} ].
Proof.
  split; [reflexivity|].
  exact (proj2 (draw_station_circles no_further_color 50 58 "net/" "#E63946"
                  true 0.8 (__init__ 20 16) eq_refl)).
Defined.

(** C2 as stated fails for a color matplotlib rejects: the second
    [Circle] of an interchange raises when only the white ring is on the
    axes, and the one [Circle] of a regular station raises before anything
    is drawn. *)
Lemma draw_station_rejected_color_circles :
  is_color_like no_further_color "notacolor" = false /\
  draw_station no_further_color 50 50 "hub" "notacolor" true 1.5
    (__init__ 20 16) =
  (Raise ValueError,
   ax_add (PatchArtist {| center := (50, 50)%float;
                          radius := (1.5 * 1.2)%float;
                          circle_color := "white"; circle_zorder := 3 |})
     (__init__ 20 16)) /\
  draw_station no_further_color 50 50 "hub" "notacolor" false 1.5
    (__init__ 20 16) =
  (Raise ValueError, __init__ 20 16).
Proof. repeat split. Qed.

Lemma draw_station_records_position_witness :
  let self :=
    (draw_station no_further_color 1 2 "net/" "black" false 0.8
       (__init__ 20 16)).2 in
  is_color_like no_further_color "gray" = true /\
  stations (draw_station no_further_color 3 4 "sys/" "gray" true 0.9 self).2
    !! "sys/" = Some (3%float, 4%float) /\
  stations (draw_station no_further_color 3 4 "sys/" "gray" true 0.9 self).2
    !! "net/" = Some (1%float, 2%float).
Proof.
  intros self. split; [reflexivity|].
  destruct (draw_station_records_position no_further_color
              3 4 "sys/" "gray" true 0.9 self eq_refl)
    as [Hname Hother].
  split; [exact Hname|].
  rewrite (Hother "net/"); [reflexivity | discriminate].
Defined.

(** C6 as stated fails for a color matplotlib rejects: the call raises
    before the assignment to [self.stations], so the name is not bound
    and the mapping is as before. *)
Lemma draw_station_rejected_color_not_recorded :
  let self :=
    (draw_station no_further_color 9 9 "k" "black" false 0.8
       (__init__ 20 16)).2 in
  let after :=
    (draw_station no_further_color 1 2 "hub" "notacolor" true 0.8 self).2 in
  stations after !! "hub" = None /\
  stations after = stations self /\
  stations self !! "k" = Some (9%float, 9%float).
Proof.
  intros self after. split; [|split].
  - vm_compute. reflexivity.
  - reflexivity.
  - vm_compute. reflexivity.
Qed.

Lemma add_label_anchor_and_box_witness :
  let kw := kwargs [Fontsize 14; Fontweight "bold"; Offset_x 0;
                    Offset_y (-3); Ha "center"; Bbox_style true] in
  label_accepted no_numeric_weight kw = true /\
  exists t : Text,
    artists (add_label no_numeric_weight 50 50 "proc:/" kw
               (__init__ 20 16)).2 = [TextArtist t] /\
    text_x t = 50%float /\ text_y t = 47%float /\
    bbox t = Some label_bbox.
Proof.
  intros kw. split; [reflexivity|].
  destruct (add_label_anchor_and_box no_numeric_weight 50 50 "proc:/" kw
              (__init__ 20 16) eq_refl)
    as (t & _ & Hartists & _ & Hx & Hy & Hbox).
  exists t. split; [exact Hartists|].
  rewrite Hx, Hy, Hbox. repeat split.
Defined.

(** C8 as stated fails for an alignment matplotlib rejects: [ax.text]
    raises and no text is placed. *)
Lemma add_label_rejected_alignment_no_text :
  add_label no_numeric_weight 50 50 "proc:/" (kwargs [Ha "middle"])
    (__init__ 20 16) =
  (Raise ValueError, __init__ 20 16) /\
  artists (add_label no_numeric_weight 50 50 "proc:/" (kwargs [Ha "middle"])
             (__init__ 20 16)).2 = [].
Proof. split; reflexivity. Qed.

Lemma depth_layering_witness :
  In first_swatch
     (drawn (__init__ default_width default_height)
            (draw_legend (__init__ default_width default_height))) /\
  is_line first_swatch = true /\ zorder first_swatch = Some 2%Z.
Proof.
  split; [exact first_swatch_drawn|].
  destruct (depth_layering no_further_color no_numeric_weight)
    as (_ & _ & _ & Hlegend).
  destruct (Hlegend (__init__ default_width default_height) first_swatch
              first_swatch_drawn)
    as [[Htext _] | Hline].
  - discriminate Htext.
  - exact Hline.
Defined.

Lemma draw_line_by_arity_witness :
  (2 <= length [[1; 2; 3]; [4; 5]]%float)%nat /\
  draw_line no_further_color [[1; 2; 3]; [4; 5]]%float "black" 4 "-"
    (__init__ 20 16) =
  (Ok tt,
   ax_add (LineArtist
             {| xdata := [1; 4]%float; ydata := [2; 5]%float;
                line_color := "black"; linewidth := 4;
                linestyle := Some "-"; line_zorder := 2;
                solid_capstyle := Some "round" |}) (__init__ 20 16)) /\
  draw_line no_further_color [[1; 2; 3]; [4; 5; 6]]%float "black" 4 "-"
    (__init__ 20 16) =
  (Raise ValueError, __init__ 20 16) /\
  draw_line no_further_color [[1; 2]; [4; 5]]%float "black" 4 "wavy"
    (__init__ 20 16) =
  (Raise ValueError, __init__ 20 16).
Proof.
  split; [simpl; lia|]. split; [|split].
  - apply (draw_line_by_arity no_further_color [[1; 2; 3]; [4; 5]]%float).
    simpl. lia.
  - apply (draw_line_by_arity no_further_color [[1; 2; 3]; [4; 5; 6]]%float).
    simpl. lia.
  - apply (draw_line_by_arity no_further_color [[1; 2]; [4; 5]]%float).
    simpl. lia.
Defined.

Lemma draw_line_through_points_witness :
  (2 <= length [(50, 50); (70, 70)]%float)%nat /\
  artists (draw_line no_further_color (map point [(50, 50); (70, 70)]%float)
             "#2A9D8F" 4 "-" (__init__ 20 16)).2 =
  [ LineArtist
      {| xdata := [50; 70]%float; ydata := [50; 70]%float;
         line_color := "#2A9D8F"; linewidth := 4;
         linestyle := Some "-"; line_zorder := 2;
         solid_capstyle := Some "round" |} ].
Proof.
  split; [simpl; lia|].
  rewrite (draw_line_through_points no_further_color
             [(50, 50); (70, 70)]%float "#2A9D8F" 4 "-" (__init__ 20 16))
    by (reflexivity || (simpl; lia)).
  reflexivity.
Defined.

Lemma raising_call_leaves_renderer_witness :
  let self := __init__ 20 16 in
  let c := draw_station_call 50 50 "hub" "notacolor" true 1.5 in
  (exec no_further_color no_numeric_weight c self).1 = Raise ValueError /\
  ((exec no_further_color no_numeric_weight c self).2 = self \/
   exists x y name color size,
     c = draw_station_call x y name color true size /\
     is_color_like no_further_color color = false /\
     (exec no_further_color no_numeric_weight c self).2 =
     ax_add (white_ring x y size) self).
Proof.
  intros self c. split; [reflexivity|].
  exact (proj2 (raising_call_leaves_renderer no_further_color
                  no_numeric_weight c self ValueError eq_refl)).
Defined.

Lemma draw_station_same_name_overwrites_witness :
  let first :=
    (draw_station no_further_color 1 2 "net/" "black" true 0.8
       (__init__ 20 16)).2 in
  let twice :=
    (draw_station no_further_color 3 4 "net/" "gray" false 0.6 first).2 in
  is_color_like no_further_color "black" = true /\
  is_color_like no_further_color "gray" = true /\
  stations twice !! "net/" = Some (3%float, 4%float) /\
  length (artists twice) = 3%nat.
Proof.
  intros first twice. split; [reflexivity|]. split; [reflexivity|].
  destruct (draw_station_same_name_overwrites no_further_color
              1 2 3 4 "net/" "black" "gray" true false 0.8 0.6
              (__init__ 20 16) eq_refl eq_refl)
    as (_ & Hbound & _ & _).
  split; [exact Hbound | reflexivity].
Defined.

Lemma replay_keeps_stations_marked_witness :
  station_marked
    (replay no_further_color no_numeric_weight
       [draw_station_call 50 50 "proc:/" "black" true 1.5;
        draw_line_call [[50; 50]; [70; 70]]%float "#2A9D8F" 4 "-";
        draw_station_call 70 70 "proc:/" "notacolor" true 0.8;
        draw_station_call 70 70 "proc:/" "black" false 0.8]
       (__init__ 20 16)).
Proof.
  apply replay_keeps_stations_marked, station_marked_init.
Defined.

Lemma replay_stations_size_witness :
  stations (__init__ 20 16) = ∅ /\
  size (stations
          (replay no_further_color no_numeric_weight
             [draw_station_call 1 2 "a" "black" false 0.8;
              draw_station_call 3 4 "a" "black" true 0.8;
              draw_station_call 5 6 "b" "notacolor" true 0.8]
             (__init__ 20 16))) <= 2.
Proof.
  split; [reflexivity|].
  exact (proj1 (replay_stations_size no_further_color no_numeric_weight
                  [draw_station_call 1 2 "a" "black" false 0.8;
                   draw_station_call 3 4 "a" "black" true 0.8;
                   draw_station_call 5 6 "b" "notacolor" true 0.8]
                  (__init__ 20 16) eq_refl)).
Defined.

Lemma generate_map_outside_limits_witness :
  xlim (__init__ 20 16) = (0, 100)%float /\
  ylim (__init__ 20 16) = (0, 100)%float /\
  List.filter (outside_limits (__init__ 20 16))
    (generate_map_drawn no_further_color no_numeric_weight) =
  legend_row "Storage Line" (COLORS storage) (-2).
Proof.
  split; [reflexivity|]. split; [reflexivity|].
  exact (generate_map_outside_limits no_further_color no_numeric_weight
           (__init__ 20 16) eq_refl eq_refl).
Defined.
